(** * ConsoleAndGDPR: the console error scraper

    A shallow embedding of [console_error_scraper.py] (class
    [ConsoleErrorScraper]) and the properties of its capture-and-persist
    workflow.

    Text is modelled by [string]: a sequence of characters with code points
    below 256.  The object [self] is a record threaded through a small
    state-and-exception monad together with the effects the script has on
    the outside (standard output, files, calls into the automation engine).
    Everything the script does not define itself (the content of [.env], the
    clock, the behaviour of the page, whether the file system lets a
    directory be made and a file be opened) is an [environment] the run is
    parameterised by.  Once a file is open, writing the document into it
    goes through, and so do the teardown calls of the engine. *)

From Stdlib Require Import Ascii String.
From stdpp Require Import base tactics option list strings gmap pretty.

(** ** Python's [str] methods, as far as the script uses them *)

Module Str.
Local Open Scope char_scope.

(** [str.isspace] on one character (code points below 256). *)
Definition isspace (c : ascii) : bool :=
  match c with
  | "009" | "010" | "011" | "012" | "013"
  | "028" | "029" | "030" | "031" | " " | "133" | "160" => true
  | _ => false
  end.

(** [s.lstrip()] generalised to a class of characters. *)
Fixpoint lstrip_by (f : ascii → bool) (s : string) : string :=
  match s with
  | EmptyString => EmptyString
  | String c s' => if f c then lstrip_by f s' else s
  end.

Fixpoint rstrip_by (f : ascii → bool) (s : string) : string :=
  match s with
  | EmptyString => EmptyString
  | String c s' =>
      match rstrip_by f s' with
      | EmptyString => if f c then EmptyString else String c EmptyString
      | r => String c r
      end
  end.

(** [s.strip()] *)
Definition strip (s : string) : string := rstrip_by isspace (lstrip_by isspace s).

(** [s.startswith(p)] *)
Fixpoint startswith (s p : string) {struct p} : bool :=
  match p, s with
  | EmptyString, _ => true
  | String _ _, EmptyString => false
  | String a p', String b s' => if decide (a = b) then startswith s' p' else false
  end.

(** [s.startswith((p1, p2, ...))] *)
Definition startswith_any (s : string) (ps : list string) : bool :=
  existsb (startswith s) ps.

(** [c in s] for a one-character string [c]. *)
Fixpoint contains (c : ascii) (s : string) : bool :=
  match s with
  | EmptyString => false
  | String b s' => if decide (b = c) then true else contains c s'
  end.

(** [s.split(c, 1)] for a one-character separator, when [c in s]: the text
    before the first [c] and the text after it. *)
Fixpoint split1 (c : ascii) (s : string) : option (string * string) :=
  match s with
  | EmptyString => None
  | String b s' =>
      if decide (b = c) then Some (EmptyString, s')
      else match split1 c s' with
           | Some (k, v) => Some (String b k, v)
           | None => None
           end
  end.

Fixpoint drop (n : nat) (s : string) : string :=
  match n, s with
  | S n', String _ s' => drop n' s'
  | _, _ => s
  end.

(** The scan of [s.replace(old, new)] for a non-empty [old]: [skip] counts
    the characters of a matched occurrence still to be passed over. *)
Fixpoint replace_go (old new : string) (skip : nat) (s : string) : string :=
  match s with
  | EmptyString => EmptyString
  | String c s' =>
      match skip with
      | S k => replace_go old new k s'
      | O =>
          if startswith s old
          then new +:+ replace_go old new (String.length old - 1) s'
          else String c (replace_go old new 0 s')
      end
  end.

(** With an empty [old] Python puts [new] before every character and at
    the end. *)
Fixpoint interleave (new s : string) : string :=
  match s with
  | EmptyString => new
  | String c s' => new +:+ String c (interleave new s')
  end.

(** [s.replace(old, new)]: every occurrence, left to right, without
    overlap. *)
Definition replace (old new s : string) : string :=
  match old with
  | EmptyString => interleave new s
  | String _ _ => replace_go old new 0 s
  end.



End Str.

(** ** [urllib.parse.urlparse]: the network location

    Library code, modelled after CPython's [urlsplit] as far as the [netloc]
    of the result goes.  [None] stands for the [ValueError] the library
    raises on a malformed bracketed host.  The validation of a bracketed
    host ([_check_bracketed_netloc], which parses IP literals) is kept
    abstract as [check_bracketed_netloc]; [_checknetloc] rejects nothing in
    the character range modelled here. *)

Module Urllib.
Local Open Scope char_scope.

(** The characters of [_WHATWG_C0_CONTROL_OR_SPACE]. *)
Definition c0_control_or_space (c : ascii) : bool :=
  bool_decide (nat_of_ascii c ≤ 32).

(** The characters of [_UNSAFE_URL_BYTES_TO_REMOVE]. *)
Definition unsafe_url_byte (c : ascii) : bool :=
  match c with "009" | "013" | "010" => true | _ => false end.

Definition isascii_alpha (c : ascii) : bool :=
  let n := nat_of_ascii c in
  bool_decide (65 ≤ n ≤ 90) || bool_decide (97 ≤ n ≤ 122).

(** [c in scheme_chars] *)
Definition scheme_char (c : ascii) : bool :=
  isascii_alpha c || bool_decide (48 ≤ nat_of_ascii c ≤ 57)
  || match c with "+" | "-" | "." => true | _ => false end.

Fixpoint all_chars (f : ascii → bool) (s : string) : bool :=
  match s with
  | EmptyString => true
  | String c s' => f c && all_chars f s'
  end.

Fixpoint remove_chars (f : ascii → bool) (s : string) : string :=
  match s with
  | EmptyString => EmptyString
  | String c s' => if f c then remove_chars f s' else String c (remove_chars f s')
  end.

(** [_splitnetloc(url, 2)[0]] on the text after the two slashes: up to the
    first of [/], [?], [#]. *)
Definition netloc_delim (c : ascii) : bool :=
  match c with "/" | "?" | "#" => true | _ => false end.

Fixpoint splitnetloc (s : string) : string :=
  match s with
  | EmptyString => EmptyString
  | String c s' => if netloc_delim c then EmptyString else String c (splitnetloc s')
  end.

(** What is left of [url] once a leading [scheme:] is taken off: the text
    before the first colon is a scheme when it is not empty, starts with
    an ASCII letter and consists of [scheme_chars]. *)
Definition drop_scheme (url : string) : string :=
  match Str.split1 ":" url with
  | Some (String c0 _ as scheme, rest) =>
      if isascii_alpha c0 && all_chars scheme_char scheme then rest else url
  | _ => url
  end.

Section Netloc.
Variable check_bracketed_netloc : string → bool.

(** [urlparse(url).netloc] *)
Definition urlparse_netloc (url : string) : option string :=
  let url := Str.lstrip_by c0_control_or_space url in
  let url := remove_chars unsafe_url_byte url in
  let url := drop_scheme url in
  if Str.startswith url "//" then
    let netloc := splitnetloc (Str.drop 2 url) in
    let ob := Str.contains "[" netloc in
    let cb := Str.contains "]" netloc in
    if (ob && negb cb) || (cb && negb ob) then None
    else if ob && cb
         then if check_bracketed_netloc netloc then Some netloc else None
         else Some netloc
  else Some EmptyString.
End Netloc.

End Urllib.

(** ** The domain identifier ([save_errors_to_json], lines 221-229) *)

(** The fallback extraction, written twice in the source (when the parsed
    domain is empty and when parsing raises). *)
Definition fallback_domain (site_url : string) : string :=
  Str.replace ":" "_"
    (Str.replace "/" "_"
       (Str.replace "www." ""
          (Str.replace "http://" "" (Str.replace "https://" "" site_url)))).

Definition domain_of_url (check_bracketed_netloc : string → bool)
    (site_url : string) : string :=
  match Urllib.urlparse_netloc check_bracketed_netloc site_url with
  | Some netloc =>
      let domain := Str.replace ":" "_" (Str.replace "www." "" netloc) in
      match domain with
      | EmptyString => fallback_domain site_url
      | _ => domain
      end
  | None => fallback_domain site_url
  end.


(** ** Data *)

(** Exceptions, all of them subclasses of [Exception].  [EngineError] is
    whatever a call into the automation engine raises (a timeout, a closed
    target, an intercepted click), [OSError] what the file system refuses
    (a name too long, a directory that cannot be created). *)
Inductive exception : Type :=
| FileNotFoundError (msg : string)
| ValueError (msg : string)
| AttributeError (msg : string)
| EngineError (msg : string)
| OSError (msg : string).

(** [str(e)] *)
Definition str_of_exception (e : exception) : string :=
  match e with
  | FileNotFoundError msg | ValueError msg | AttributeError msg | EngineError msg
  | OSError msg => msg
  end.

(** [msg.location] of a console message. *)
Record source_location : Type := {
  loc_url : string;
  lineNumber : nat;
  columnNumber : nat
}.

(** The engine's [ConsoleMessage], as far as the script reads it. *)
Record console_message : Type := {
  msg_type : string;
  msg_text : string;
  msg_location : source_location
}.

(** The dictionary appended to [self.console_errors]. *)
Record error_data : Type := {
  timestamp : string;
  type : string;
  text : string;
  location : option source_location;
  url : option string
}.

(** [output_data], the document written by [save_errors_to_json]. *)
Record output_data : Type := {
  out_site_url : string;
  out_domain : string;
  out_scraped_at : string;
  out_GDPR_PRESENT : string;
  out_total_errors : nat;
  out_errors : list error_data
}.

(** What the page delivers to the two observers registered by
    [setup_browser], with [self.page.url] at the time of delivery. *)
Inductive page_event : Type :=
| ConsoleEvent (msg : console_message) (page_url : string)
| PageErrorEvent (error : string) (page_url : string).

(** A call into the engine: the events delivered to the observers while the
    script waits in it, then its result. *)
Record engine_call (A : Type) : Type := {
  delivered : list page_event;
  result : exception + A
}.
Arguments delivered {A} _.
Arguments result {A} _.

(** Everything a run depends on and the script does not define. *)
Record environment : Type := {
  env_file : option string;             (* the text of .env; None when absent *)
  now : nat → string;                   (* successive datetime.now().isoformat() *)
  check_bracketed_netloc : string → bool;
  playwright_start : option exception;  (* None: the call succeeds *)
  chromium_launch : option exception;
  browser_new_context : option exception;
  context_new_page : option exception;
  page_goto : string → engine_call unit;
  locator_is_visible : string → engine_call bool;
  locator_click : string → engine_call unit;
  page_wait_for_load_state : engine_call unit;
  page_evaluate : string → engine_call unit;
  fs_mkdir : string → option exception; (* Path.mkdir(parents=True, exist_ok=True) *)
  fs_open : string → option exception   (* open(path, 'w'), for a path the
                                           interpreter hands to the system *)
}.

(** Handles of the engine's objects held in [self]. *)
Inductive handle : Type := PlaywrightObj | BrowserObj | PageObj.

(** The instance attributes of [ConsoleErrorScraper]. *)
Record scraper : Type := {
  playwright : option handle;
  browser : option handle;
  page : option handle;
  console_errors : list error_data;
  site_url : option string;
  gdpr_present : bool
}.

(** The effects of the script, in the order it performs them: the calls
    into the engine and [Path.mkdir], each an effect whether it returns or
    raises, the pauses, and for [WriteFile] the document written into a
    file that has been opened. *)
Inductive effect : Type :=
| PlaywrightStart
| ChromiumLaunch
| NewContext
| NewPage
| PageOn (event : string)
| Goto (target : string)
| IsVisible (selector : string)
| Click (selector : string)
| WaitForLoadState
| Evaluate (script : string)
| Sleep (seconds : nat)
| Mkdir (path : string)
| WriteFile (path : string) (data : output_data)
| PageClose
| BrowserClose
| PlaywrightStop.

(** The resources of the engine that are currently held. *)
Record resources : Type := {
  engine_running : bool;
  browser_open : bool;
  context_open : bool;
  page_open : bool
}.

(** The world outside the object. *)
Record world : Type := {
  stdout : list string;
  files : gmap string output_data;
  trace : list effect;
  clock : nat;
  live : resources
}.

(** ** The monad: state and exceptions *)

Definition state : Type := scraper * world.

Inductive outcome (A : Type) : Type :=
| Return (a : A)
| Raise (e : exception).
Arguments Return {A} _.
Arguments Raise {A} _.

Definition M (A : Type) : Type := state → outcome A * state.

Definition ret {A} (a : A) : M A := λ st, (Return a, st).

Definition bind {A B} (m : M A) (k : A → M B) : M B :=
  λ st, match m st with
        | (Return a, st') => k a st'
        | (Raise e, st') => (Raise e, st')
        end.

Definition raise {A} (e : exception) : M A := λ st, (Raise e, st).

(** [try: body  except Exception as e: handler e] *)
Definition try_except {A} (body : M A) (handler : exception → M A) : M A :=
  λ st, match body st with
        | (Return a, st') => (Return a, st')
        | (Raise e, st') => handler e st'
        end.

(** [try: body  finally: final] *)
Definition try_finally {A} (body : M A) (final : M unit) : M A :=
  λ st, match body st with
        | (r, st') =>
            match final st' with
            | (Return _, st'') => (r, st'')
            | (Raise e, st'') => (Raise e, st'')
            end
        end.

Global Instance M_ret : MRet M := @ret.
Global Instance M_bind : MBind M := λ A B k m, bind m k.

Definition get_self : M scraper := λ st, (Return (fst st), st).
Definition get_world : M world := λ st, (Return (snd st), st).
Definition modify_self (f : scraper → scraper) : M unit :=
  λ st, (Return tt, (f (fst st), snd st)).
Definition modify_world (f : world → world) : M unit :=
  λ st, (Return tt, (fst st, f (snd st))).

(** Field updates. *)
Definition set_playwright (v : option handle) (s : scraper) : scraper :=
  {| playwright := v; browser := browser s; page := page s;
     console_errors := console_errors s; site_url := site_url s;
     gdpr_present := gdpr_present s |}.
Definition set_browser (v : option handle) (s : scraper) : scraper :=
  {| playwright := playwright s; browser := v; page := page s;
     console_errors := console_errors s; site_url := site_url s;
     gdpr_present := gdpr_present s |}.
Definition set_page (v : option handle) (s : scraper) : scraper :=
  {| playwright := playwright s; browser := browser s; page := v;
     console_errors := console_errors s; site_url := site_url s;
     gdpr_present := gdpr_present s |}.
Definition append_error (d : error_data) (s : scraper) : scraper :=
  {| playwright := playwright s; browser := browser s; page := page s;
     console_errors := console_errors s ++ [d]; site_url := site_url s;
     gdpr_present := gdpr_present s |}.
Definition set_site_url (v : option string) (s : scraper) : scraper :=
  {| playwright := playwright s; browser := browser s; page := page s;
     console_errors := console_errors s; site_url := v;
     gdpr_present := gdpr_present s |}.
Definition set_gdpr_present (v : bool) (s : scraper) : scraper :=
  {| playwright := playwright s; browser := browser s; page := page s;
     console_errors := console_errors s; site_url := site_url s;
     gdpr_present := v |}.

Definition add_stdout (line : string) (w : world) : world :=
  {| stdout := stdout w ++ [line]; files := files w; trace := trace w;
     clock := clock w; live := live w |}.
Definition add_trace (c : effect) (w : world) : world :=
  {| stdout := stdout w; files := files w; trace := trace w ++ [c];
     clock := clock w; live := live w |}.
Definition tick (w : world) : world :=
  {| stdout := stdout w; files := files w; trace := trace w;
     clock := S (clock w); live := live w |}.
Definition set_live (r : resources) (w : world) : world :=
  {| stdout := stdout w; files := files w; trace := trace w;
     clock := clock w; live := r |}.
Definition put_file (path : string) (data : output_data) (w : world) : world :=
  {| stdout := stdout w; files := <[path := data]> (files w); trace := trace w;
     clock := clock w; live := live w |}.

(** [print(line)] *)
Definition print (line : string) : M unit := modify_world (add_stdout line).
Definition log (c : effect) : M unit := modify_world (add_trace c).
(** [time.sleep(seconds)] *)
Definition sleep (seconds : nat) : M unit := log (Sleep seconds).

(** ** Reading [.env] *)

(** [for line in file]: the lines of a text file opened with universal
    newlines, each with its terminator translated to a line feed. *)
Fixpoint file_lines (content : string) : list string :=
  match content with
  | EmptyString => []
  | String c rest =>
      if decide (c = "010"%char) then String "010" "" :: file_lines rest
      else if decide (c = "013"%char) then
        match rest with
        | String "010" rest' => String "010" "" :: file_lines rest'
        | _ => String "010" "" :: file_lines rest
        end
      else match file_lines rest with
           | [] => [String c ""]
           | l :: ls => String c l :: ls
           end
  end.

(** The loop of [load_env_file] (lines 26-32): the value of
    [self.site_url] when the loop is left. *)
Fixpoint scan_env (lines : list string) (site_url : option string) : option string :=
  match lines with
  | [] => site_url
  | line :: rest =>
      let line := Str.strip line in
      if negb (bool_decide (line = "")) && negb (Str.startswith line "#")
         && Str.contains "=" line
      then match Str.split1 "=" line with
           | Some (key, value) =>
               if bool_decide (Str.strip key = "SITE_URL")
               then Some (Str.strip value)
               else scan_env rest site_url
           | None => scan_env rest site_url
           end
      else scan_env rest site_url
  end.

(** Lines 37-40: the scheme is added when the URL starts with neither
    [http://] nor [https://]. *)
Definition lacks_protocol (site_url : string) : bool :=
  negb (Str.startswith_any site_url ["http://"; "https://"]).

(** ** The consent selectors (lines 102-144) *)

Definition accept_selectors : list string := [
  "button:has-text('Accept All')";
  "button:has-text('Accept all')";
  "button:has-text('ACCEPT ALL')";
  "button:has-text('Accept All Cookies')";
  "button:has-text('Accept all cookies')";
  "#accept-all";
  "#acceptAll";
  "#accept_all";
  ".accept-all";
  ".acceptAll";
  ".accept_all";
  "button:has-text('I Accept')";
  "button:has-text('I Agree')";
  "button:has-text('OK')";
  "button:has-text('Got it')";
  "button:has-text('Agree')";
  "button:has-text('Continue')";
  "button[aria-label*='Accept']";
  "button[aria-label*='accept']";
  "button[data-testid*='accept']";
  "button[data-cy*='accept']";
  "[id*='CybotCookiebotDialogBodyLevelButtonLevelOptinAllowAll']";
  ".cc-allow-all";
  ".cookie-accept";
  ".gdpr-accept";
  "//*[contains(text(), 'Accept') and (self::button or self::a)]";
  "//*[contains(text(), 'I agree') and (self::button or self::a)]";
  "//*[contains(text(), 'Continue') and (self::button or self::a)]"
].

(** Lines 151-156: the locator string handed to [self.page.locator]. *)
Definition locator_of (selector : string) : string :=
  if Str.startswith selector "//" then "xpath=" +:+ selector else selector.

(** ** The tally printed at the end of [save_errors_to_json] *)

(** [error_types[t] = error_types.get(t, 0) + 1] on a dictionary that keeps
    its keys in insertion order. *)
Fixpoint bump (t : string) (error_types : list (string * nat)) : list (string * nat) :=
  match error_types with
  | [] => [(t, 1)]
  | (k, n) :: rest => if decide (k = t) then (k, S n) :: rest else (k, n) :: bump t rest
  end.

Definition tally (errors : list error_data) : list (string * nat) :=
  foldl (λ acc d, bump (type d) acc) [] errors.

(** ** The methods of [ConsoleErrorScraper] *)

(** [__init__] *)
Definition init : scraper :=
  {| playwright := None; browser := None; page := None;
     console_errors := []; site_url := None; gdpr_present := false |}.

Section Scraper.
Variable E : environment.

(** [datetime.now().isoformat()] *)
Definition isoformat_now : M string :=
  w ← get_world;
  modify_world tick;;
  mret (now E (clock w)).

(** [self.page.url if self.page else None] *)
Definition current_url (page_url : string) : M (option string) :=
  s ← get_self;
  mret (match page s with Some _ => Some page_url | None => None end).

Definition handle_console_message (msg : console_message) (page_url : string) : M unit :=
  if bool_decide (msg_type msg ∈ ["error"; "warning"]) then
    ts ← isoformat_now;
    u ← current_url page_url;
    modify_self (append_error
      {| timestamp := ts; type := msg_type msg; text := msg_text msg;
         location := Some (msg_location msg); url := u |});;
    print ("Console " +:+ msg_type msg +:+ ": " +:+ msg_text msg)
  else mret tt.

Definition handle_page_error (error : string) (page_url : string) : M unit :=
  ts ← isoformat_now;
  u ← current_url page_url;
  modify_self (append_error
    {| timestamp := ts; type := "page_error"; text := error;
       location := None; url := u |});;
  print ("Page error: " +:+ error).

(** The observers registered with [page.on]. *)
Definition deliver (ev : page_event) : M unit :=
  match ev with
  | ConsoleEvent msg page_url => handle_console_message msg page_url
  | PageErrorEvent error page_url => handle_page_error error page_url
  end.

Fixpoint deliver_all (evs : list page_event) : M unit :=
  match evs with
  | [] => mret tt
  | ev :: rest => deliver ev;; deliver_all rest
  end.

(** A call on the page: it is logged, the events that arrive while it
    waits are handled, then it returns or raises. *)
Definition on_page {A} (c : effect) (r : engine_call A) : M A :=
  log c;;
  deliver_all (delivered r);;
  match result r with
  | inl e => raise e
  | inr a => mret a
  end.

(** The lookup of a method of [self.page]: with no page the attribute is
    [None] and the lookup raises before anything is called. *)
Definition page_attribute (name : string) : M unit :=
  s ← get_self;
  match page s with
  | Some _ => mret tt
  | None => raise (AttributeError ("'NoneType' object has no attribute '" +:+ name +:+ "'"))
  end.

(** A call that acquires a resource of the engine. *)
Definition acquire (c : effect) (failure : option exception)
    (held : resources → resources) : M unit :=
  log c;;
  match failure with
  | Some e => raise e
  | None => w ← get_world; modify_world (set_live (held (live w)))
  end.

Definition load_env_file : M unit :=
  match env_file E with
  | None =>
      raise (FileNotFoundError
        "No .env file found. Please create a .env file with SITE_URL=<your_site_url>")
  | Some content =>
      s ← get_self;
      modify_self (set_site_url (scan_env (file_lines content) (site_url s)));;
      s ← get_self;
      match site_url s with
      | None | Some EmptyString => raise (ValueError "SITE_URL not found in .env file")
      | Some u =>
          (if lacks_protocol u then
             modify_self (set_site_url (Some ("https://" +:+ u)));;
             print "Added https:// protocol to URL"
           else mret tt);;
          s ← get_self;
          print ("Loaded site URL: " +:+ default "None" (site_url s))
      end
  end.

Definition setup_browser : M unit :=
  s ← get_self;
  (match playwright s with
   | None =>
       acquire PlaywrightStart (playwright_start E)
         (λ r, {| engine_running := true; browser_open := browser_open r;
                  context_open := context_open r; page_open := page_open r |});;
       modify_self (set_playwright (Some PlaywrightObj))
   | Some _ => mret tt
   end);;
  acquire ChromiumLaunch (chromium_launch E)
    (λ r, {| engine_running := engine_running r; browser_open := true;
             context_open := context_open r; page_open := page_open r |});;
  modify_self (set_browser (Some BrowserObj));;
  acquire NewContext (browser_new_context E)
    (λ r, {| engine_running := engine_running r; browser_open := browser_open r;
             context_open := true; page_open := page_open r |});;
  acquire NewPage (context_new_page E)
    (λ r, {| engine_running := engine_running r; browser_open := browser_open r;
             context_open := context_open r; page_open := true |});;
  modify_self (set_page (Some PageObj));;
  log (PageOn "console");;
  log (PageOn "pageerror");;
  print "Browser setup complete".

(** The body of the [try] in the loop of [find_and_click_accept_button]
    (lines 150-164): [true] when the function returns [True] from inside
    the loop, [false] when the body falls through. *)
Definition try_selector (selector : string) : M bool :=
  let element := locator_of selector in
  page_attribute "locator";;
  visible ← on_page (IsVisible element) (locator_is_visible E element);
  if visible : bool then
    print ("Found accept button with selector: " +:+ selector);;
    on_page (Click element) (locator_click E element);;
    print "Successfully clicked 'Accept All' button";;
    modify_self (set_gdpr_present true);;
    sleep 2;;
    mret true
  else mret false.

(** The loop over the selectors (lines 148-170). *)
Fixpoint try_selectors (selectors : list string) : M bool :=
  match selectors with
  | [] =>
      print "No 'Accept All' button found or unable to click";;
      mret false
  | selector :: rest =>
      clicked ← try_except (try_selector selector) (λ _, mret false);
      if clicked : bool then mret true else try_selectors rest
  end.

Definition find_and_click_accept_button : M bool :=
  print "Looking for 'Accept All' cookie button...";;
  try_selectors accept_selectors.

(** Lines 186-202 of [navigate_and_capture_errors]: waiting for the page
    to settle and scrolling down and up. *)
Definition settle_and_scroll : M unit :=
  print "Waiting for page to fully load...";;
  page_attribute "wait_for_load_state";;
  on_page WaitForLoadState (page_wait_for_load_state E);;
  sleep 5;;
  print "Scrolling page to trigger additional content...";;
  page_attribute "evaluate";;
  on_page (Evaluate "window.scrollTo(0, document.body.scrollHeight)")
    (page_evaluate E "window.scrollTo(0, document.body.scrollHeight)");;
  sleep 3;;
  page_attribute "evaluate";;
  on_page (Evaluate "window.scrollTo(0, 0)") (page_evaluate E "window.scrollTo(0, 0)");;
  sleep 2;;
  s ← get_self;
  print ("Captured " +:+ pretty (length (console_errors s)) +:+ " console errors/warnings").

(** [self.page.goto(self.site_url, ...)]; outside [run] the URL can still
    be [None], which the engine refuses. *)
Definition goto_site_url : M unit :=
  page_attribute "goto";;
  s ← get_self;
  match site_url s with
  | Some u => on_page (Goto u) (page_goto E u)
  | None => log (Goto "None");; raise (EngineError "url: expected string")
  end.

(** The body of the [try] in [navigate_and_capture_errors]
    (lines 175-202). *)
Definition navigate_body : M unit :=
  s ← get_self;
  print ("Navigating to: " +:+ default "None" (site_url s));;
  goto_site_url;;
  sleep 3;;
  find_and_click_accept_button;;
  settle_and_scroll.

Definition navigate_and_capture_errors : M unit :=
  try_except navigate_body (λ e,
    ts ← isoformat_now;
    s ← get_self;
    modify_self (append_error
      {| timestamp := ts; type := "navigation_error";
         text := "Navigation error: " +:+ str_of_exception e;
         location := None; url := site_url s |});;
    print ("Navigation error: " +:+ str_of_exception e)).

(** [output_dir.mkdir(parents=True, exist_ok=True)] *)
Definition mkdir (path : string) : M unit :=
  log (Mkdir path);;
  match fs_mkdir E path with
  | Some e => raise e
  | None => mret tt
  end.

(** [open(path, 'w', encoding='utf-8')]: the interpreter refuses a path
    with a null character before it asks the system. *)
Definition open_w (path : string) : M unit :=
  if Str.contains "000" path then raise (ValueError "embedded null byte")
  else match fs_open E path with
       | Some e => raise e
       | None => mret tt
       end.

(** [with open(...) as f: json.dump(output_data, f, ...)]; [WriteFile] is
    the document written into the opened file. *)
Definition write_json (path : string) (data : output_data) : M unit :=
  open_w path;;
  log (WriteFile path data);;
  modify_world (put_file path data).

Fixpoint print_summary (error_types : list (string * nat)) : M unit :=
  match error_types with
  | [] => mret tt
  | (error_type, count) :: rest =>
      print ("  - " +:+ error_type +:+ ": " +:+ pretty count);;
      print_summary rest
  end.

Definition save_errors_to_json : M unit :=
  s ← get_self;
  match console_errors s with
  | [] => print "No console errors captured"
  | _ :: _ =>
      match site_url s with
      | None => raise (AttributeError "'NoneType' object has no attribute 'replace'")
      | Some u =>
          let domain := domain_of_url (check_bracketed_netloc E) u in
          let output_dir := "console_error/site_url" in
          mkdir output_dir;;
          let json_filename := domain +:+ ".json" in
          let json_filepath := output_dir +:+ "/" +:+ json_filename in
          ts ← isoformat_now;
          let output_data :=
            {| out_site_url := u;
               out_domain := domain;
               out_scraped_at := ts;
               out_GDPR_PRESENT := if gdpr_present s then "TRUE" else "FALSE";
               out_total_errors := length (console_errors s);
               out_errors := console_errors s |} in
          write_json json_filepath output_data;;
          print ("Console errors saved to: " +:+ json_filepath);;
          print ("Total errors captured: " +:+ pretty (length (console_errors s)));;
          print ("GDPR/Cookie consent detected: "
                 +:+ (if gdpr_present s then "YES" else "NO"));;
          print "Error summary:";;
          print_summary (tally (console_errors s))
      end
  end.

(** A teardown call of the engine. *)
Definition release (c : effect) (freed : resources → resources) : M unit :=
  log c;;
  w ← get_world;
  modify_world (set_live (freed (live w))).

Definition cleanup : M unit :=
  s ← get_self;
  (match page s with
   | Some _ =>
     release PageClose
       (λ r, {| engine_running := engine_running r; browser_open := browser_open r;
                context_open := context_open r; page_open := false |})
   | None => mret tt
   end);;
  (match browser s with
   | Some _ =>
     release BrowserClose
       (λ r, {| engine_running := engine_running r; browser_open := false;
                context_open := false; page_open := false |})
   | None => mret tt
   end);;
  (match playwright s with
   | Some _ =>
     release PlaywrightStop
       (λ r, {| engine_running := false; browser_open := browser_open r;
                context_open := context_open r; page_open := page_open r |})
   | None => mret tt
   end);;
  print "Browser cleanup complete".

(** The body of the [try] in [run] (lines 280-292). *)
Definition run_body : M unit :=
  print "Starting console error scraper...";;
  load_env_file;;
  setup_browser;;
  navigate_and_capture_errors;;
  save_errors_to_json.

Definition run : M unit :=
  try_finally
    (try_except run_body
       (λ e, print ("Error during execution: " +:+ str_of_exception e)))
    cleanup.

(** The world a process starts in: nothing printed, nothing held, the
    files already on disk. *)
Definition fresh_world (disk : gmap string output_data) : world :=
  {| stdout := []; files := disk; trace := []; clock := 0;
     live := {| engine_running := false; browser_open := false;
                context_open := false; page_open := false |} |}.

(** [main()]: a new scraper, run once. *)
Definition main (disk : gmap string output_data) : outcome unit * state :=
  run (init, fresh_world disk).

End Scraper.

(** ** The configuration file, said without the loop *)

(** [line] is a line that sets [SITE_URL], to the value [v]: stripped, it is
    [key=value] with no [=] in [key], it does not start with [#], and [key]
    strips to [SITE_URL]. *)
Definition sets_site_url (line v : string) : Prop :=
  ∃ key value,
    Str.strip line = key +:+ String "=" value
    ∧ Str.contains "=" key = false
    ∧ Str.startswith (Str.strip line) "#" = false
    ∧ Str.strip key = "SITE_URL"
    ∧ v = Str.strip value.

(** [line] is none of those. *)
Definition passed_over (line : string) : Prop := ∀ v, ¬ sets_site_url line v.

(** Nothing of the engine is held. *)
Definition nothing_held : resources :=
  {| engine_running := false; browser_open := false;
     context_open := false; page_open := false |}.

(** The two messages of a failed [load_env_file]. *)
Definition no_env_file : exception :=
  FileNotFoundError
    "No .env file found. Please create a .env file with SITE_URL=<your_site_url>".
Definition no_site_url : exception := ValueError "SITE_URL not found in .env file".

(** The configuration is missing: no file, no line that sets [SITE_URL], or
    a first such line with an empty value. *)
Definition configuration_missing (E : environment) : Prop :=
  env_file E = None
  ∨ ∃ content, env_file E = Some content
      ∧ (Forall passed_over (file_lines content)
         ∨ ∃ pre line post,
             file_lines content = pre ++ line :: post
             ∧ Forall passed_over pre ∧ sets_site_url line "").

(** ** Sample environments *)

(** A call during which nothing is delivered and that returns [a]. *)
Definition silent {A} (a : A) : engine_call A :=
  {| delivered := []; result := inr a |}.

(** A call that raises without delivering anything. *)
Definition failing {A} (msg : string) : engine_call A :=
  {| delivered := []; result := inl (EngineError msg) |}.

(** A page that logs nothing and shows no consent banner, with the given
    content of [.env]. *)
Definition plain_page (file : option string) : environment :=
  {| env_file := file;
     now := λ n, "2024-01-01T00:00:0" +:+ pretty n;
     check_bracketed_netloc := λ _, true;
     playwright_start := None;
     chromium_launch := None;
     browser_new_context := None;
     context_new_page := None;
     page_goto := λ _, silent tt;
     locator_is_visible := λ _, silent false;
     locator_click := λ _, silent tt;
     page_wait_for_load_state := silent tt;
     page_evaluate := λ _, silent tt;
     fs_mkdir := λ _, None;
     fs_open := λ _, None |}.

(** A configuration file with a comment, another key, the key in
    question with blanks around it, and a second setting of it. *)
Definition sample_env_file : string :=
  "# target
FOO=bar
 SITE_URL = www.Example.com:8080/path 
SITE_URL=https://other.example
".

(** ** The output file, said without the method *)

(** The path of the output file for a domain. *)
Definition output_path (domain : string) : string :=
  "console_error/site_url/" +:+ domain +:+ ".json".

(** The document for a scraper that holds the URL [u], written when the
    clock reads [time]. *)
Definition document (E : environment) (s : scraper) (u : string) (time : nat) : output_data :=
  {| out_site_url := u;
     out_domain := domain_of_url (check_bracketed_netloc E) u;
     out_scraped_at := now E time;
     out_GDPR_PRESENT := if gdpr_present s then "TRUE" else "FALSE";
     out_total_errors := length (console_errors s);
     out_errors := console_errors s |}.

(** The files a sequence of effects writes, in order. *)
Definition writes (t : list effect) : list (string * output_data) :=
  omap (λ c, match c with WriteFile path data => Some (path, data) | _ => None end) t.

(** The document can be written at [path]: the directory can be made, the
    interpreter accepts the path, and the system opens the file. *)
Definition writable (E : environment) (path : string) : Prop :=
  fs_mkdir E "console_error/site_url" = None
  ∧ Str.contains "000" path = false
  ∧ fs_open E path = None.

(** ** The consent resolver, said without the loop *)

(** The candidate is visible and its click goes through. *)
Definition activates (E : environment) (selector : string) : bool :=
  match result (locator_is_visible E (locator_of selector)),
        result (locator_click E (locator_of selector)) with
  | inr true, inr _ => true
  | _, _ => false
  end.

(** The calls spent on a candidate that is not activated: the visibility
    check, and the click when the candidate was visible. *)
Definition fruitless (E : environment) (selector : string) : list effect :=
  IsVisible (locator_of selector)
  :: match result (locator_is_visible E (locator_of selector)) with
     | inr true => [Click (locator_of selector)]
     | _ => []
     end.

(** The calls spent on the candidate that is activated, with the pause. *)
Definition fruitful (selector : string) : list effect :=
  [IsVisible (locator_of selector); Click (locator_of selector); Sleep 2].

(** The page opens and the resolver activates a candidate. *)
Definition consent_activated (E : environment) (u : string) : bool :=
  match result (page_goto E u) with
  | inr _ => existsb (activates E) accept_selectors
  | inl _ => false
  end.

(** The object as [load_env_file] and [setup_browser] leave it: the three
    handles held, the target known, nothing recorded yet. *)
Definition after_setup : scraper :=
  {| playwright := Some PlaywrightObj; browser := Some BrowserObj; page := Some PageObj;
     console_errors := []; site_url := Some "https://www.Example.com:8080/path";
     gdpr_present := false |}.

(** A page with a cookie banner: [#accept-all] is visible but its click is
    intercepted, [#acceptAll] is visible and can be clicked. While the page
    opens it logs an error and a message of another severity; while it
    settles a script throws. *)
Definition banner_page : environment :=
  {| env_file := Some sample_env_file;
     now := λ n, "2024-01-01T00:00:0" +:+ pretty n;
     check_bracketed_netloc := λ _, true;
     playwright_start := None;
     chromium_launch := None;
     browser_new_context := None;
     context_new_page := None;
     page_goto := λ u,
       {| delivered :=
            [ConsoleEvent
               {| msg_type := "error"; msg_text := "Failed to load resource";
                  msg_location := {| loc_url := "https://cdn.example/a.js";
                                     lineNumber := 1; columnNumber := 20 |} |} u;
             ConsoleEvent
               {| msg_type := "log"; msg_text := "ready";
                  msg_location := {| loc_url := "https://cdn.example/a.js";
                                     lineNumber := 3; columnNumber := 0 |} |} u];
          result := inr tt |};
     locator_is_visible := λ l,
       silent (bool_decide (l = "#accept-all" ∨ l = "#acceptAll"));
     locator_click := λ l,
       if bool_decide (l = "#accept-all") then failing "click intercepted" else silent tt;
     page_wait_for_load_state :=
       {| delivered := [PageErrorEvent "TypeError: x is undefined" "https://www.Example.com:8080/path"];
          result := inr tt |};
     page_evaluate := λ _, silent tt;
     fs_mkdir := λ _, None;
     fs_open := λ _, None |}.



(** The event [navigate_and_capture_errors] appends for the exception [e],
    at the time [time], for a scraper whose URL attribute is [u]. *)
Definition navigation_error (E : environment) (time : nat) (e : exception)
    (u : option string) : error_data :=
  {| timestamp := now E time;
     type := "navigation_error";
     text := "Navigation error: " +:+ str_of_exception e;
     location := None;
     url := u |}.

(** How many events of a kind a sequence holds. *)
Definition kind_count (kind : string) (errors : list error_data) : nat :=
  length (filter (λ d, type d = kind) errors).

(** ** Teardown, said without the method *)

(** Every resource held is one [cleanup] will release: the engine through
    [self.playwright], the browser, its context and its page through
    [self.browser]. *)
Definition covered (st : state) : Prop :=
  (engine_running (live st.2) = true → is_Some (playwright st.1))
  ∧ (browser_open (live st.2) = true → is_Some (browser st.1))
  ∧ (context_open (live st.2) = true → is_Some (browser st.1))
  ∧ (page_open (live st.2) = true → is_Some (browser st.1)).

(** The teardown calls [cleanup] makes for a scraper. *)
Definition teardown (s : scraper) : list effect :=
  (if page s is Some _ then [PageClose] else [])
  ++ (if browser s is Some _ then [BrowserClose] else [])
  ++ (if playwright s is Some _ then [PlaywrightStop] else []).

(** How often a line was printed. *)
Definition line_count (line : string) (out : list string) : nat :=
  length (filter (λ l, l = line) out).

(** A machine on which the browser cannot be launched. *)
Definition no_browser : environment :=
  {| env_file := Some sample_env_file;
     now := λ n, "2024-01-01T00:00:0" +:+ pretty n;
     check_bracketed_netloc := λ _, true;
     playwright_start := None;
     chromium_launch := Some (EngineError "Executable doesn't exist");
     browser_new_context := None;
     context_new_page := None;
     page_goto := λ _, silent tt;
     locator_is_visible := λ _, silent false;
     locator_click := λ _, silent tt;
     page_wait_for_load_state := silent tt;
     page_evaluate := λ _, silent tt;
     fs_mkdir := λ _, None;
     fs_open := λ _, None |}.

(** ** The vocabulary of the properties *)

(** [respects R m]: whatever [m] does and however it ends, the state it
    leaves is related by [R] to the state it started in. *)
Definition respects (R : relation state) {A} (m : M A) : Prop :=
  ∀ st, R st (m st).2.

(** The components of a state. *)
Definition errors_of (st : state) : list error_data := console_errors st.1.
Definition url_of (st : state) : option string := site_url st.1.
Definition gdpr_of (st : state) : bool := gdpr_present st.1.
Definition handles_of (st : state) : option handle * option handle * option handle * resources :=
  (playwright st.1, browser st.1, page st.1, live st.2).
Definition files_of (st : state) : gmap string output_data := files st.2.
Definition trace_of (st : state) : list effect := trace st.2.
Definition stdout_of (st : state) : list string := stdout st.2.

(** [l'] is [l] with elements that satisfy [P] appended. *)
Definition extends {A} (P : A → Prop) (l l' : list A) : Prop :=
  ∃ new, l' = l ++ new ∧ Forall P new.

(** The step leaves the component [f] of the state as it was. *)
Definition same_on {B} (f : state → B) : relation state := λ st st', f st' = f st.

(** The step appends to the component [f], and what it appends satisfies
    [P]. *)
Definition extends_on {B} (f : state → list B) (P : B → Prop) : relation state :=
  λ st st', extends P (f st) (f st').

(** A flag that, once set, stays set. *)
Definition sticky (f : state → bool) : relation state :=
  λ st st', f st = true → f st' = true.

(** Two relations at once. *)
Definition both (R1 R2 : relation state) : relation state :=
  λ st st', R1 st st' ∧ R2 st st'.
Infix "&&&" := both (at level 40, left associativity).

(** The kinds an event can have. *)
Definition valid_kind (d : error_data) : Prop :=
  type d ∈ ["error"; "warning"; "page_error"; "navigation_error"].

(** The kinds the two observers give. *)
Definition observed_kind (d : error_data) : Prop :=
  type d ∈ ["error"; "warning"; "page_error"].

(** Effects by the part of the run they belong to. *)
Definition is_write (c : effect) : bool :=
  match c with WriteFile _ _ => true | _ => false end.
Definition is_teardown (c : effect) : bool :=
  match c with PageClose | BrowserClose | PlaywrightStop => true | _ => false end.
Definition is_acquisition (c : effect) : bool :=
  match c with
  | PlaywrightStart | ChromiumLaunch | NewContext | NewPage | PageOn _ => true
  | _ => false
  end.
Definition on_the_page (c : effect) : bool :=
  match c with
  | Goto _ | IsVisible _ | Click _ | WaitForLoadState | Evaluate _ | Sleep _ => true
  | _ => false
  end.

(** The line [cleanup] prints when it is done. *)
Definition cleanup_line : string := "Browser cleanup complete".

(** A line other than the one [cleanup] ends with. *)
Definition quiet (line : string) : Prop := line ≠ cleanup_line.

(** The [except] clause of [run]. *)
Definition report (e : exception) : M unit :=
  print ("Error during execution: " +:+ str_of_exception e).

(** The stages a run goes through, and the state each one leaves: it
    stops at the first stage that raises, reports, and cleans up. *)
Inductive run_path (E : environment) (st0 : state) : state → Prop :=
| stop_at_load e st1 :
    load_env_file E (print "Starting console error scraper..." st0).2 = (Raise e, st1) →
    run_path E st0 (cleanup (report e st1).2).2
| stop_at_setup st1 e st2 :
    load_env_file E (print "Starting console error scraper..." st0).2 = (Return tt, st1) →
    setup_browser E st1 = (Raise e, st2) →
    run_path E st0 (cleanup (report e st2).2).2
| stop_at_save st1 st2 st3 e st4 :
    load_env_file E (print "Starting console error scraper..." st0).2 = (Return tt, st1) →
    setup_browser E st1 = (Return tt, st2) →
    navigate_and_capture_errors E st2 = (Return tt, st3) →
    save_errors_to_json E st3 = (Raise e, st4) →
    run_path E st0 (cleanup (report e st4).2).2
| complete st1 st2 st3 st4 :
    load_env_file E (print "Starting console error scraper..." st0).2 = (Return tt, st1) →
    setup_browser E st1 = (Return tt, st2) →
    navigate_and_capture_errors E st2 = (Return tt, st3) →
    save_errors_to_json E st3 = (Return tt, st4) →
    run_path E st0 (cleanup st4).2.

(** ** The error summary, said without the dictionary *)


(** A scraper that holds one console error of a page it has opened. *)
Definition one_error : scraper :=
  {| playwright := Some PlaywrightObj; browser := Some BrowserObj; page := Some PageObj;
     console_errors :=
       [{| timestamp := "2024-01-01T00:00:00"; type := "error";
           text := "Failed to load resource";
           location := Some {| loc_url := "https://cdn.example/a.js";
                               lineNumber := 1; columnNumber := 20 |};
           url := Some "https://www.example.com/" |}];
     site_url := Some "https://www.example.com";
     gdpr_present := false |}.
(** ** Targets of the usual form *)

(** A network location without the characters that end it, that the
    parser removes, or that bracket an IP literal. *)
Definition plain_netloc (netloc : string) : bool :=
  Urllib.all_chars
    (λ c, negb (Urllib.netloc_delim c) && negb (Urllib.unsafe_url_byte c)
          && negb (bool_decide (c = "["%char)) && negb (bool_decide (c = "]"%char)))
    netloc.

(** What follows the network location in a URL: nothing, or a path, a
    query or a fragment. *)
Definition after_netloc (rest : string) : bool :=
  match rest with
  | EmptyString => true
  | String c _ => Urllib.netloc_delim c
  end.

(** A configuration file that sets nothing. *)
Definition comment_only : string :=
  "# no setting
".

(** A line of text: no line feed and no carriage return in it. *)
Definition one_line (s : string) : bool :=
  negb (Str.contains "010" s) && negb (Str.contains "013" s).

(** ** Time stamps *)

(** The events bear the successive readings of the clock: the first event
    the first reading, and so on, and no reading was taken for anything
    else. *)
Definition stamped (E : environment) (st : state) : Prop :=
  timestamp <$> errors_of st = now E <$> seq 0 (clock st.2).

(** A step that keeps it so. *)
Definition keeps_stamped (E : environment) : relation state :=
  λ st st', stamped E st → stamped E st'.
(** ** The shape of an event *)

(** An event of a run on the target [u]: it names the page it comes from;
    it has a source location exactly when it is a console message; and
    when it records a failed navigation it names the target itself. *)
Definition well_formed_event (u : string) (d : error_data) : Prop :=
  is_Some (url d)
  ∧ (is_Some (location d) ↔ type d ∈ ["error"; "warning"])
  ∧ (type d = "navigation_error" → url d = Some u).

(** A step on an object that holds a page and the target [u]: it keeps
    both and appends events of that shape only. *)
Definition on_open_page (u : string) : relation state :=
  λ st st',
    is_Some (page st.1) ∧ site_url st.1 = Some u →
    is_Some (page st'.1) ∧ site_url st'.1 = Some u
    ∧ extends (well_formed_event u) (errors_of st) (errors_of st').

(** * Properties *)

(** ** Strings *)

(** Appending to a literal prefix computes. *)
#[local] Arguments String.append !s1 s2 : simpl nomatch.

Section StrFacts.
Implicit Types (s p old new k v : string) (c : ascii) (f : ascii → bool).

Lemma contains_app c s1 s2 :
  Str.contains c (s1 +:+ s2) = Str.contains c s1 || Str.contains c s2.
Proof.
  induction s1 as [|b s1 IH]; simpl; [done|].
  destruct (decide (b = c)); auto.
Qed.

Lemma split1_Some c s k v :
  Str.split1 c s = Some (k, v) ↔ s = k +:+ String c v ∧ Str.contains c k = false.
Proof.
  revert k. induction s as [|b s IH]; intros k; simpl.
  - split; [done|]. intros [H _]. by destruct k.
  - destruct (decide (b = c)) as [->|Hne].
    + split.
      * intros [= <- <-]. done.
      * intros [H Hk]. destruct k as [|a k]; simpl in *; [by simplify_eq|].
        simplify_eq. by rewrite decide_True in Hk.
    + split.
      * destruct (Str.split1 c s) as [[k' v']|] eqn:Hs; [|done].
        intros [= <- <-]. destruct (IH k') as [[-> Hk] _]; [done|].
        simpl. by rewrite decide_False.
      * intros [H Hk]. destruct k as [|a k]; simpl in *; simplify_eq.
        rewrite decide_False in Hk by done.
        assert (Str.split1 c (k +:+ String c v) = Some (k, v)) as -> by (by apply IH).
        done.
Qed.


Lemma startswith_app s p : Str.startswith (p +:+ s) p = true.
Proof. induction p as [|a p IH]; simpl; [done|]. by rewrite decide_True. Qed.

Lemma startswith_inv s p : Str.startswith s p = true → ∃ r, s = p +:+ r.
Proof.
  revert s. induction p as [|a p IH]; intros s; simpl.
  - by exists s.
  - destruct s as [|b s]; [done|]. destruct (decide (a = b)) as [->|]; [|done].
    intros [r ->]%IH. by exists r.
Qed.



Lemma contains_all_chars c s :
  Str.contains c s = false ↔ Urllib.all_chars (λ b, negb (bool_decide (b = c))) s = true.
Proof.
  induction s as [|b s IH]; simpl; [done|].
  destruct (decide (b = c)) as [->|Hne].
  - rewrite bool_decide_eq_true_2 by done. simpl. done.
  - rewrite bool_decide_eq_false_2 by done. simpl. done.
Qed.





End StrFacts.

(** ** The network location and the domain identifier *)

Section DomainFacts.
Variable chk : string → bool.
Implicit Types (s u d : string) (c : ascii) (f : ascii → bool).


Lemma lstrip_by_absent c f s :
  Str.contains c s = false → Str.contains c (Str.lstrip_by f s) = false.
Proof.
  induction s as [|b s IH]; [done|]. intros Hs. cbn [Str.lstrip_by].
  destruct (f b); [|done]. apply IH. simpl in Hs. by destruct (decide (b = c)).
Qed.









End DomainFacts.

(** ** Steps that stay within a relation on states *)

Section Respects.
Context (R : relation state) `{!PreOrder R}.

Lemma respects_ret {A} (a : A) : respects R (mret a).
Proof. intros st. simpl. reflexivity. Qed.

Lemma respects_raise {A} (e : exception) : respects R (@raise A e).
Proof. intros st. simpl. reflexivity. Qed.

Lemma respects_bind {A B} (m : M A) (k : A → M B) :
  respects R m → (∀ a, respects R (k a)) → respects R (m ≫= k).
Proof.
  intros Hm Hk st. unfold mbind, M_bind, bind.
  specialize (Hm st). destruct (m st) as [[a|e] st']; simpl in *; [|done].
  etrans; [done|]. apply Hk.
Qed.

Lemma respects_try_except {A} (body : M A) (handler : exception → M A) :
  respects R body → (∀ e, respects R (handler e)) →
  respects R (try_except body handler).
Proof.
  intros Hm Hk st. unfold try_except.
  specialize (Hm st). destruct (body st) as [[a|e] st']; simpl in *; [done|].
  etrans; [done|]. apply Hk.
Qed.

Lemma respects_try_finally {A} (body : M A) (final : M unit) :
  respects R body → respects R final → respects R (try_finally body final).
Proof.
  intros Hm Hk st. unfold try_finally.
  specialize (Hm st). destruct (body st) as [r st']; simpl in *.
  specialize (Hk st'). destruct (final st') as [[[]|e] st'']; simpl in *;
    by etrans.
Qed.

Lemma respects_get_self : respects R get_self.
Proof. intros st. simpl. reflexivity. Qed.

Lemma respects_get_world : respects R get_world.
Proof. intros st. simpl. reflexivity. Qed.

Lemma respects_modify_self (f : scraper → scraper) :
  (∀ s w, R (s, w) (f s, w)) → respects R (modify_self f).
Proof. intros H [s w]. apply H. Qed.

Lemma respects_modify_world (f : world → world) :
  (∀ s w, R (s, w) (s, f w)) → respects R (modify_world f).
Proof. intros H [s w]. apply H. Qed.

End Respects.

Section RespectsLoops.
Context (E : environment) (R : relation state) `{!PreOrder R}.

Lemma deliver_all_respects evs :
  (∀ ev, respects R (deliver E ev)) → respects R (deliver_all E evs).
Proof.
  intros H. induction evs as [|ev evs IH]; simpl.
  - by apply respects_ret.
  - apply respects_bind; auto.
Qed.

Lemma print_summary_respects error_types :
  (∀ t (n : nat), respects R (print ("  - " +:+ t +:+ ": " +:+ pretty n))) →
  respects R (print_summary error_types).
Proof.
  intros H. induction error_types as [|[t n] l IH]; cbn [print_summary].
  - by apply respects_ret.
  - apply respects_bind; [done|apply H|done].
Qed.

Lemma try_selectors_respects selectors :
  (∀ selector, respects R (try_selector E selector)) →
  respects R (print "No 'Accept All' button found or unable to click") →
  respects R (try_selectors E selectors).
Proof.
  intros H Hp. induction selectors as [|sel sels IH]; cbn [try_selectors].
  - apply respects_bind; [done..|]. intros _. by apply respects_ret.
  - apply respects_bind; [done| |].
    + apply respects_try_except; [done..|]. intros _. by apply respects_ret.
    + intros []; [by apply respects_ret|done].
Qed.
End RespectsLoops.

(** The methods that are not recursive, opened up to the primitives. *)
Ltac open_methods :=
  unfold run, run_body, cleanup, save_errors_to_json, write_json, open_w, mkdir,
    page_attribute, navigate_and_capture_errors, navigate_body, goto_site_url,
    settle_and_scroll, find_and_click_accept_button,
    try_selector, setup_browser, load_env_file, acquire, release, on_page,
    deliver, handle_console_message, handle_page_error, isoformat_now,
    current_url, sleep, print, log.

(** One step through the syntax of a method; what is left are the updates
    of the state, to be checked against the relation at hand. *)
Ltac respects_step :=
  lazymatch goal with
  | |- respects _ (mbind _ _) => apply respects_bind; [try apply _| |intros ?]
  | |- respects _ (mret _) => apply respects_ret; try apply _
  | |- respects _ (raise _) => apply respects_raise; try apply _
  | |- respects _ (try_except _ _) =>
      apply respects_try_except; [try apply _| |intros ?]
  | |- respects _ (try_finally _ _) => apply respects_try_finally; [try apply _| |]
  | |- respects _ get_self => apply respects_get_self; try apply _
  | |- respects _ get_world => apply respects_get_world; try apply _
  | |- respects _ (modify_self _) => apply respects_modify_self; intros ??
  | |- respects _ (modify_world _) => apply respects_modify_world; intros ??
  | |- respects _ (deliver_all _ _) =>
      apply deliver_all_respects; [try apply _|intros ?]
  | |- respects _ (print_summary _) =>
      apply print_summary_respects; [try apply _|intros ??]
  | |- respects _ (try_selectors _ _) =>
      apply try_selectors_respects; [try apply _|intros ?|]
  | |- respects _ (match ?x with _ => _ end) => destruct x eqn:?
  end.

(** ** What a step leaves alone and what it adds to *)

Global Instance extends_preorder {A} (P : A → Prop) : PreOrder (extends P).
Proof.
  split.
  - intros l. exists []. by rewrite app_nil_r.
  - intros l1 l2 l3 (n1 & -> & H1) (n2 & -> & H2). exists (n1 ++ n2).
    split; [by rewrite app_assoc|]. by apply Forall_app.
Qed.

Lemma extends_snoc {A} (P : A → Prop) (l : list A) (x : A) : P x → extends P l (l ++ [x]).
Proof. intros. exists [x]. split; [done|]. by constructor. Qed.

Lemma extends_mono {A} (P Q : A → Prop) (l l' : list A) :
  (∀ x, P x → Q x) → extends P l l' → extends Q l l'.
Proof. intros HPQ (n & -> & H). exists n. split; [done|]. eapply Forall_impl; eauto. Qed.

Global Instance same_on_preorder {B} (f : state → B) : PreOrder (same_on f).
Proof.
  split.
  - by intros st.
  - intros st1 st2 st3. unfold same_on. congruence.
Qed.

Global Instance extends_on_preorder {B} (f : state → list B) (P : B → Prop) :
  PreOrder (extends_on f P).
Proof.
  split.
  - intros st. unfold extends_on. reflexivity.
  - intros st1 st2 st3. unfold extends_on. intros. by etrans.
Qed.

Global Instance sticky_preorder (f : state → bool) : PreOrder (sticky f).
Proof. split; unfold sticky; [by intros st|]. intros st1 st2 st3. auto. Qed.

Global Instance both_preorder (R1 R2 : relation state) `{!PreOrder R1, !PreOrder R2} :
  PreOrder (R1 &&& R2).
Proof.
  split.
  - intros st. by split.
  - intros st1 st2 st3 [??] [??]. split; by etrans.
Qed.

(** The severities the console observer keeps are kinds of both sorts. *)
Lemma console_kinds (t : string) :
  bool_decide (t ∈ ["error"; "warning"]) = true →
  t ∈ ["error"; "warning"; "page_error"]
  ∧ t ∈ ["error"; "warning"; "page_error"; "navigation_error"].
Proof.
  intros Ht%bool_decide_eq_true_1. rewrite !elem_of_cons in *.
  destruct Ht as [->|[->|[]%elem_of_nil]]; auto.
Qed.

(** The leaves: an update of the state against [same_on] or [extends_on]. *)
Ltac leaf :=
  unfold both; repeat apply conj;
  unfold same_on, extends_on, sticky, errors_of, url_of, gdpr_of, handles_of, files_of,
    trace_of, stdout_of; simpl;
  first
    [ reflexivity
    | done
    | apply extends_snoc; unfold valid_kind, observed_kind, cleanup_line; simpl;
      first [ done | by repeat constructor | by apply console_kinds ] ].

Ltac respects_auto := repeat (open_methods; respects_step); try leaf.

(** ** How a run unfolds *)

Section Paths.
Variable E : environment.

Lemma print_returns line st : ∃ st', print line st = (Return tt, st').
Proof. by eexists. Qed.

Lemma cleanup_returns st : (cleanup st).1 = Return tt.
Proof.
  destruct st as [s w]. unfold cleanup, release, print, log.
  unfold mbind, M_bind, bind, get_self, get_world, modify_world, mret, M_ret, ret.
  simpl. by destruct (page s), (browser s), (playwright s).
Qed.

Lemma navigate_returns st : (navigate_and_capture_errors E st).1 = Return tt.
Proof.
  unfold navigate_and_capture_errors, try_except.
  destruct (navigate_body E st) as [[[]|e] st']; reflexivity.
Qed.

(** [run] never raises, and ends along one of the paths. *)
Lemma run_unfolds st0 :
  ∃ st, run E st0 = (Return tt, st) ∧ run_path E st0 st.
Proof.
  unfold run, try_finally, try_except, run_body.
  unfold mbind, M_bind, bind at 1 2 3 4.
  change (print "Starting console error scraper..." st0)
    with (Return tt, (print "Starting console error scraper..." st0).2).
  cbv beta iota.
  set (st := (print _ st0).2).
  assert (∀ (r : outcome unit) x, ∃ st',
    (let (o, st'') := cleanup x in
     match o with Return _ => (r, st'') | Raise e0 => (Raise e0, st'') end)
    = (r, st') ∧ st' = (cleanup x).2) as Hfin.
  { intros r x. pose proof (cleanup_returns x) as Hc.
    destruct (cleanup x) as [[[]|?] st5]; [|done]. by eexists. }
  destruct (load_env_file E st) as [[[]|e] st1] eqn:Hload.
  - destruct (setup_browser E st1) as [[[]|e] st2] eqn:Hsetup.
    + pose proof (navigate_returns st2) as Hnav.
      destruct (navigate_and_capture_errors E st2) as [r st3] eqn:Hn.
      simpl in Hnav. subst r.
      destruct (save_errors_to_json E st3) as [[[]|e] st4] eqn:Hsave.
      * destruct (Hfin (Return tt) st4) as (st5 & -> & ->).
        eexists. split; [done|]. by eapply complete.
      * change (print _ st4) with (Return tt, (report e st4).2). cbv beta iota.
        destruct (Hfin (Return tt) (report e st4).2) as (st5 & -> & ->).
        eexists. split; [done|]. by eapply stop_at_save.
    + change (print _ st2) with (Return tt, (report e st2).2). cbv beta iota.
      destruct (Hfin (Return tt) (report e st2).2) as (st5 & -> & ->).
      eexists. split; [done|]. by eapply stop_at_setup.
  - change (print _ st1) with (Return tt, (report e st1).2). cbv beta iota.
    destruct (Hfin (Return tt) (report e st1).2) as (st5 & -> & ->).
    eexists. split; [done|]. by eapply stop_at_load.
Qed.

End Paths.

Section Invariants.
Variable E : environment.

(** Every method only appends to the event sequence, and only events of
    the four kinds. *)
Lemma run_grows : respects (extends_on errors_of valid_kind) (run E).
Proof. respects_auto. Qed.

(** Printing changes the standard output only. *)
Lemma print_frame line :
  quiet line →
  respects (same_on errors_of &&& same_on url_of &&& same_on gdpr_of
            &&& same_on handles_of &&& same_on files_of &&& same_on trace_of
            &&& extends_on stdout_of quiet) (print line).
Proof. intros. respects_auto. Qed.

Lemma report_frame e :
  respects (same_on errors_of &&& same_on url_of &&& same_on gdpr_of
            &&& same_on handles_of &&& same_on files_of &&& same_on trace_of
            &&& extends_on stdout_of quiet) (report e).
Proof. apply print_frame. unfold quiet, cleanup_line. by intros [=]. Qed.

Lemma load_env_file_frame :
  respects (same_on errors_of &&& same_on gdpr_of &&& same_on handles_of
            &&& same_on files_of &&& same_on trace_of
            &&& extends_on stdout_of quiet) (load_env_file E).
Proof. respects_auto. Qed.

Lemma setup_browser_frame :
  respects (same_on errors_of &&& same_on url_of &&& same_on gdpr_of
            &&& same_on files_of
            &&& extends_on trace_of (λ c, is_acquisition c = true)
            &&& extends_on stdout_of quiet) (setup_browser E).
Proof. respects_auto. Qed.


Lemma navigate_frame :
  respects (extends_on errors_of valid_kind &&& same_on url_of
            &&& sticky gdpr_of &&& same_on handles_of &&& same_on files_of
            &&& extends_on trace_of (λ c, on_the_page c = true)
            &&& extends_on stdout_of quiet) (navigate_and_capture_errors E).
Proof. respects_auto. Qed.

Lemma save_errors_to_json_frame :
  respects (same_on errors_of &&& same_on url_of &&& same_on gdpr_of
            &&& same_on handles_of
            &&& extends_on trace_of (λ c, is_teardown c = false)
            &&& extends_on stdout_of quiet) (save_errors_to_json E).
Proof. respects_auto. Qed.

Lemma cleanup_frame :
  respects (same_on errors_of &&& same_on url_of &&& same_on gdpr_of
            &&& same_on files_of
            &&& extends_on trace_of (λ c, is_teardown c = true)) cleanup.
Proof. respects_auto. Qed.

End Invariants.

(** ** Reading the configuration *)

Section Config.
Implicit Types (line v : string) (lines : list string).

Lemma rstrip_by_absent c f s :
  Str.contains c s = false → Str.contains c (Str.rstrip_by f s) = false.
Proof.
  induction s as [|b s IH]; [done|]. simpl.
  destruct (decide (b = c)) as [->|Hne]; [done|]. intros Hs.
  specialize (IH Hs).
  destruct (Str.rstrip_by f s) eqn:Hr.
  - destruct (f b); simpl; [done|]. by rewrite decide_False.
  - simpl. rewrite decide_False by done. exact IH.
Qed.

Lemma strip_absent c s : Str.contains c s = false → Str.contains c (Str.strip s) = false.
Proof. intros. by apply rstrip_by_absent, lstrip_by_absent. Qed.

Lemma strip_keeps_hash s :
  Str.startswith s "#" = true → Str.startswith (Str.strip s) "#" = true.
Proof.
  intros [r ->]%startswith_inv. unfold Str.strip. simpl.
  by destruct (Str.rstrip_by Str.isspace r).
Qed.

(** One turn of the loop on a line that sets [SITE_URL]. *)
Lemma scan_env_hit line v rest init :
  sets_site_url line v → scan_env (line :: rest) init = Some v.
Proof.
  intros (key & value & Hline & Hkey & Hhash & Hk & ->). cbn [scan_env].
  rewrite Hhash, Hline.
  rewrite bool_decide_eq_false_2 by by destruct key.
  rewrite contains_app. simpl. rewrite orb_true_r. simpl.
  assert (Str.split1 "=" (key +:+ String "=" value) = Some (key, value)) as ->
    by by apply split1_Some.
  by rewrite bool_decide_eq_true_2.
Qed.

(** One turn of the loop on any other line. *)
Lemma scan_env_pass line rest init :
  passed_over line → scan_env (line :: rest) init = scan_env rest init.
Proof.
  intros Hno. cbn [scan_env].
  destruct (negb (bool_decide (Str.strip line = "")) && _ && _) eqn:Hc; [|done].
  apply andb_true_iff in Hc as [[_ Hhash]%andb_true_iff Heq].
  destruct (Str.split1 "=" (Str.strip line)) as [[key value]|] eqn:Hs; [|done].
  case_bool_decide as Hk; [|done].
  apply split1_Some in Hs as [Hline Hkey].
  destruct (Hno (Str.strip value)). exists key, value.
  by rewrite negb_true_iff in Hhash.
Qed.

(** Blank lines, comment lines and lines without [=] are passed over. *)
Lemma passed_over_cases line :
  Str.strip line = "" ∨ Str.startswith line "#" = true ∨ Str.contains "=" line = false →
  passed_over line.
Proof.
  intros Hcase v (key & value & Hline & Hkey & Hhash & Hk & ->).
  destruct Hcase as [Hb|[Hh|He]].
  - rewrite Hb in Hline. by destruct key.
  - apply strip_keeps_hash in Hh. congruence.
  - apply (strip_absent "=") in He. rewrite Hline, contains_app in He.
    simpl in He. by rewrite orb_true_r in He.
Qed.

(** The loop stops at the first line that sets [SITE_URL]. *)
Lemma scan_env_first pre line post v init :
  Forall passed_over pre → sets_site_url line v →
  scan_env (pre ++ line :: post) init = Some v.
Proof.
  intros Hpre Hline. induction Hpre as [|l pre Hl _ IH].
  - by apply scan_env_hit.
  - rewrite <- app_comm_cons, scan_env_pass by done. exact IH.
Qed.

(** Without such a line the attribute keeps its value. *)
Lemma scan_env_none lines init : Forall passed_over lines → scan_env lines init = init.
Proof.
  induction 1 as [|l lines Hl _ IH]; [done|]. by rewrite scan_env_pass.
Qed.

End Config.

Section Load.
Variable E : environment.

Lemma load_env_file_absent st :
  env_file E = None → load_env_file E st = (Raise no_env_file, st).
Proof. intros H. unfold load_env_file. by rewrite H. Qed.

Lemma load_env_file_raises content s w :
  env_file E = Some content →
  scan_env (file_lines content) (site_url s) = None
  ∨ scan_env (file_lines content) (site_url s) = Some "" →
  load_env_file E (s, w)
  = (Raise no_site_url,
     (set_site_url (scan_env (file_lines content) (site_url s)) s, w)).
Proof.
  intros H Hscan. unfold load_env_file. rewrite H.
  unfold mbind, M_bind, bind, get_self, modify_self. simpl.
  by destruct Hscan as [-> | ->].
Qed.

Lemma load_env_file_loads content s w v :
  env_file E = Some content →
  scan_env (file_lines content) (site_url s) = Some v → v ≠ "" →
  ∃ st', load_env_file E (s, w) = (Return tt, st')
    ∧ url_of st' = Some (if lacks_protocol v then "https://" +:+ v else v).
Proof.
  intros H Hscan Hv. unfold load_env_file. rewrite H.
  unfold mbind, M_bind, bind, get_self, modify_self. simpl. rewrite Hscan.
  destruct v as [|c v]; [done|]. destruct (lacks_protocol (String c v)); by eexists.
Qed.

(** After a successful load the attribute holds a URL with a protocol. *)
Lemma load_env_file_returns st st' :
  load_env_file E st = (Return tt, st') →
  ∃ u, url_of st' = Some u ∧ lacks_protocol u = false.
Proof.
  destruct st as [s w]. unfold load_env_file.
  destruct (env_file E) as [content|]; [|done].
  unfold mbind, M_bind, bind, get_self, modify_self. simpl.
  destruct (scan_env _ _) as [[|c v]|]; [done| |done].
  destruct (lacks_protocol (String c v)) eqn:Hp; simpl; intros [= <-].
  - by eexists.
  - by eexists.
Qed.

Lemma configuration_missing_raises s w :
  site_url s = None → configuration_missing E →
  ∃ e s', load_env_file E (s, w) = (Raise e, (s', w))
    ∧ (e = no_env_file ∨ e = no_site_url)
    ∧ playwright s' = playwright s ∧ browser s' = browser s ∧ page s' = page s
    ∧ console_errors s' = console_errors s.
Proof.
  intros Hs [Hnone|(content & Hfile & Hlines)].
  - exists no_env_file, s. rewrite load_env_file_absent by done. auto 10.
  - assert (scan_env (file_lines content) (site_url s) = None
            ∨ scan_env (file_lines content) (site_url s) = Some "") as Hscan.
    { destruct Hlines as [Hall|(pre & line & post & -> & Hpre & Hline)].
      - left. by rewrite scan_env_none.
      - right. by apply scan_env_first. }
    exists no_site_url. eexists. rewrite (load_env_file_raises content) by done.
    auto 10.
Qed.

End Load.

(** ** The configuration loader: C6, C7, C10 *)

(** C10. The loop of [load_env_file] takes the first line that sets
    [SITE_URL] (the key is the text before the first [=], stripped) and
    stops there, whatever follows; blank lines, lines that start with [#]
    and lines without [=] are passed over; when the value of that first
    line strips to the empty string, [load_env_file] raises the
    [SITE_URL not found] error instead of using it. *)
Theorem first_site_url_line_decides (E : environment) (s : scraper) (w : world)
    (content : string) (pre : list string) (line : string) (post : list string)
    (v : string) :
  env_file E = Some content →
  file_lines content = pre ++ line :: post →
  Forall passed_over pre →
  sets_site_url line v →
  scan_env (file_lines content) (site_url s) = Some v
  ∧ (∀ other, scan_env (pre ++ line :: other) (site_url s) = Some v)
  ∧ (∀ l rest init,
       Str.strip l = "" ∨ Str.startswith l "#" = true ∨ Str.contains "=" l = false →
       scan_env (l :: rest) init = scan_env rest init)
  ∧ (v = "" →
     ∃ st', load_env_file E (s, w) = (Raise no_site_url, st') ∧ url_of st' = Some "")
  ∧ (v ≠ "" →
     ∃ st', load_env_file E (s, w) = (Return tt, st')
       ∧ url_of st' = Some (if lacks_protocol v then "https://" +:+ v else v)).
Proof.
  intros Hfile Hlines Hpre Hline.
  assert (scan_env (file_lines content) (site_url s) = Some v) as Hscan
    by (rewrite Hlines; by apply scan_env_first).
  split_and!; [done| | | |].
  - intros other. by apply scan_env_first.
  - intros l rest init Hl. by apply scan_env_pass, passed_over_cases.
  - intros ->. eexists. rewrite (load_env_file_raises E content) by auto.
    split; [done|]. unfold url_of. simpl. by rewrite Hscan.
  - intros Hv. by eapply load_env_file_loads.
Qed.

Lemma first_site_url_line_decides_witness :
  scan_env (file_lines sample_env_file) None = Some "www.Example.com:8080/path"
  ∧ ∃ st', load_env_file (plain_page (Some sample_env_file)) (init, fresh_world ∅)
           = (Return tt, st')
     ∧ url_of st' = Some "https://www.Example.com:8080/path".
Proof.
  assert (sets_site_url " SITE_URL = www.Example.com:8080/path 
" "www.Example.com:8080/path") as Hline.
  { exists "SITE_URL ", " www.Example.com:8080/path". by split_and!. }
  assert (Forall passed_over ["# target
"; "FOO=bar
"]) as Hpre.
  { repeat constructor.
    - apply passed_over_cases. right. by left.
    - intros v (key & value & Hl & Hkey & _ & Hk & _).
      assert (Str.split1 "=" "FOO=bar" = Some (key, value)) as [= <- <-]
        by by apply split1_Some.
      done. }
  destruct (first_site_url_line_decides (plain_page (Some sample_env_file)) init
              (fresh_world ∅) sample_env_file
              ["# target
"; "FOO=bar
"] " SITE_URL = www.Example.com:8080/path 
"
              ["SITE_URL=https://other.example
"] "www.Example.com:8080/path" eq_refl eq_refl Hpre Hline) as (H1 & _ & _ & _ & H2).
  split; [exact H1|]. by apply H2.
Defined.

(** C7. When the configured URL starts with neither [http://] nor
    [https://] (so, in particular, when it carries no scheme at all),
    [load_env_file] puts [https://] in front of it, once; a URL that starts
    with one of the two is left as it is. *)
Theorem https_prepended_once (E : environment) (s : scraper) (w : world)
    (content : string) (v : string) :
  env_file E = Some content →
  scan_env (file_lines content) (site_url s) = Some v →
  v ≠ "" →
  ∃ st' u,
    load_env_file E (s, w) = (Return tt, st') ∧ url_of st' = Some u
    ∧ ((∀ rest, v ≠ "http://" +:+ rest ∧ v ≠ "https://" +:+ rest) →
       u = "https://" +:+ v)
    ∧ ((∃ rest, v = "http://" +:+ rest ∨ v = "https://" +:+ rest) → u = v)
    ∧ lacks_protocol u = false.
Proof.
  intros Hfile Hscan Hv.
  destruct (load_env_file_loads E content s w v) as (st' & Hload & Hurl); [done..|].
  exists st'. eexists. split_and!; [done..| | |].
  - intros Hno. unfold lacks_protocol, Str.startswith_any. cbn [existsb].
    destruct (Str.startswith v "http://") eqn:H1.
    { apply startswith_inv in H1 as [r ->]. by destruct (Hno r) as [? _]. }
    destruct (Str.startswith v "https://") eqn:H2; [|done].
    apply startswith_inv in H2 as [r ->]. by destruct (Hno r) as [_ ?].
  - intros [rest [-> | ->]]; by rewrite ?startswith_app.
  - destruct (lacks_protocol v) eqn:Hp; done.
Qed.

Lemma https_prepended_once_witness :
  ∃ st' u,
    load_env_file (plain_page (Some sample_env_file)) (init, fresh_world ∅)
    = (Return tt, st')
    ∧ url_of st' = Some u
    ∧ u = "https://www.Example.com:8080/path".
Proof.
  destruct (https_prepended_once (plain_page (Some sample_env_file)) init
              (fresh_world ∅) sample_env_file "www.Example.com:8080/path"
              eq_refl eq_refl ltac:(done)) as (st' & u & Hload & Hurl & Hadd & _).
  exists st', u. split_and!; [done..|]. apply Hadd. by intros rest.
Defined.

(** C6. When [.env] is absent, or holds no line that sets [SITE_URL], or
    the first such line has an empty value, the run ends with the
    configuration error reported and nothing else done: no call into the
    engine (nothing is acquired), no file written, and [run] returns. *)
Theorem configuration_error_aborts (E : environment) (disk : gmap string output_data) :
  configuration_missing E →
  ∃ e s w,
    main E disk = (Return tt, (s, w))
    ∧ (e = no_env_file ∨ e = no_site_url)
    ∧ stdout w = ["Starting console error scraper...";
                  "Error during execution: " +:+ str_of_exception e;
                  cleanup_line]
    ∧ trace w = []
    ∧ live w = nothing_held
    ∧ files w = disk
    ∧ playwright s = None ∧ browser s = None ∧ page s = None
    ∧ console_errors s = [].
Proof.
  intros Hmissing. unfold main.
  destruct (run_unfolds E (init, fresh_world disk)) as (st & -> & Hpath).
  set (w1 := (print "Starting console error scraper..." (init, fresh_world disk)).2.2).
  destruct (configuration_missing_raises E init w1 eq_refl Hmissing)
    as (e & s' & Hload & He & Hpw & Hbr & Hpg & Herr).
  exists e.
  inversion Hpath as [e' st1 Hl|st1 e' st2 Hl|st1 st2 st3 e' st4 Hl|st1 st2 st3 st4 Hl];
    change (print "Starting console error scraper..." (init, fresh_world disk)).2
      with (init, w1) in Hl;
    rewrite Hload in Hl; simplify_eq.
  destruct s' as [pw br pg errs u g]. simpl in *. subst.
  eexists _, _. split; [reflexivity|]. by split_and!.
Qed.

Lemma configuration_error_aborts_witness :
  ∃ e s w,
    main (plain_page None) ∅ = (Return tt, (s, w))
    ∧ (e = no_env_file ∨ e = no_site_url)
    ∧ stdout w = ["Starting console error scraper...";
                  "Error during execution: " +:+ str_of_exception e;
                  cleanup_line]
    ∧ trace w = []
    ∧ live w = nothing_held
    ∧ files w = ∅
    ∧ playwright s = None ∧ browser s = None ∧ page s = None
    ∧ console_errors s = [].
Proof. apply configuration_error_aborts. by left. Defined.

(** ** The result persister *)

Section Save.
Variable E : environment.

Lemma print_summary_prints error_types s w :
  ∃ w', print_summary error_types (s, w) = (Return tt, (s, w'))
    ∧ files w' = files w ∧ trace w' = trace w ∧ clock w' = clock w
    ∧ live w' = live w.
Proof.
  revert w. induction error_types as [|[t n] l IH]; intros w.
  - by exists w.
  - cbn [print_summary]. unfold mbind, M_bind, bind, print, modify_world.
    cbn [fst snd].
    destruct (IH (add_stdout ("  - " +:+ t +:+ ": " +:+ pretty n) w))
      as (w' & -> & ? & ? & ? & ?).
    by exists w'.
Qed.

(** Nothing captured: nothing written. *)
Lemma save_errors_to_json_skips s w :
  console_errors s = [] →
  save_errors_to_json E (s, w) = (Return tt, (s, add_stdout "No console errors captured" w)).
Proof.
  intros H. unfold save_errors_to_json, mbind, M_bind, bind, get_self. simpl.
  by rewrite H.
Qed.

(** Something captured and the target writable: the directory is ensured
    and one document is written, at the path of the domain. *)
Lemma save_errors_to_json_writes s w u :
  console_errors s ≠ [] → site_url s = Some u →
  writable E (output_path (domain_of_url (check_bracketed_netloc E) u)) →
  ∃ w', save_errors_to_json E (s, w) = (Return tt, (s, w'))
    ∧ trace w' = trace w ++
        [Mkdir "console_error/site_url";
         WriteFile (output_path (domain_of_url (check_bracketed_netloc E) u))
           (document E s u (clock w))]
    ∧ files w' = <[output_path (domain_of_url (check_bracketed_netloc E) u)
                   := document E s u (clock w)]> (files w)
    ∧ live w' = live w.
Proof.
  intros Herr Hurl (Hmk & Hnul & Hop).
  unfold save_errors_to_json, write_json, open_w, mkdir, isoformat_now, print, log.
  unfold mbind, M_bind, bind, get_self, get_world, modify_world, mret, M_ret, ret.
  cbn [fst snd]. destruct (console_errors s) as [|d ds] eqn:Hd; [done|].
  rewrite Hurl. cbn [fst snd]. rewrite Hmk. cbn [fst snd].
  match goal with
  | |- context [Str.contains "000" ?p] =>
      change p with (output_path (domain_of_url (check_bracketed_netloc E) u))
  end.
  rewrite Hnul, Hop. cbn [fst snd].
  match goal with
  | |- context [print_summary ?l (?s', ?w0)] =>
      destruct (print_summary_prints l s' w0) as (w' & -> & Hf & Ht & Hc & Hl)
  end.
  exists w'. split; [done|]. rewrite Hf, Ht, Hl. simpl.
  unfold output_path, document. rewrite Hd, <- app_assoc. done.
Qed.

(** Something captured and the target not writable: the method raises
    after the attempt to create the directory, and nothing is written or
    printed. *)
Lemma save_errors_to_json_fails s w u :
  console_errors s ≠ [] → site_url s = Some u →
  ¬ writable E (output_path (domain_of_url (check_bracketed_netloc E) u)) →
  ∃ e w', save_errors_to_json E (s, w) = (Raise e, (s, w'))
    ∧ trace w' = trace w ++ [Mkdir "console_error/site_url"]
    ∧ files w' = files w ∧ live w' = live w ∧ stdout w' = stdout w.
Proof.
  intros Herr Hurl Hno. unfold writable in Hno.
  unfold save_errors_to_json, write_json, open_w, mkdir, isoformat_now, print, log.
  unfold mbind, M_bind, bind, get_self, get_world, modify_world, mret, M_ret, ret, raise.
  cbn [fst snd]. destruct (console_errors s) as [|d ds] eqn:Hd; [done|].
  rewrite Hurl. cbn [fst snd].
  destruct (fs_mkdir E "console_error/site_url") as [e|] eqn:Hmk.
  { by eexists _, _. }
  cbn [fst snd].
  match goal with
  | |- context [Str.contains "000" ?p] =>
      change p with (output_path (domain_of_url (check_bracketed_netloc E) u))
  end.
  destruct (Str.contains "000" _) eqn:Hnul.
  { by eexists _, _. }
  destruct (fs_open E _) as [e|] eqn:Hop.
  { by eexists _, _. }
  by destruct Hno.
Qed.

(** However [save_errors_to_json] ends, it leaves the object as it is. *)
Lemma save_errors_to_json_self st : (save_errors_to_json E st).2.1 = st.1.
Proof.
  destruct st as [s w].
  destruct (console_errors s) as [|d ds] eqn:Hd.
  { by rewrite save_errors_to_json_skips. }
  destruct (site_url s) as [u|] eqn:Hu.
  - destruct (decide (writable E (output_path (domain_of_url (check_bracketed_netloc E) u))))
      as [Hw|Hw].
    + destruct (save_errors_to_json_writes s w u) as (w' & -> & _); [by rewrite Hd|done..].
    + destruct (save_errors_to_json_fails s w u) as (e & w' & -> & _); [by rewrite Hd|done..].
  - unfold save_errors_to_json, mbind, M_bind, bind, get_self. cbn [fst snd].
    by rewrite Hd, Hu.
Qed.

End Save.

(** ** The domain identifier: C2 *)

Lemma writes_app (t1 t2 : list effect) : writes (t1 ++ t2) = writes t1 ++ writes t2.
Proof. apply omap_app. Qed.




(** ** The consent resolver *)

Section Resolver.
Variable E : environment.

Lemma deliver_returns ev st : (deliver E ev st).1 = Return tt.
Proof.
  destruct ev as [msg u|err u]; unfold deliver, handle_console_message,
    handle_page_error, isoformat_now, current_url, print.
  - by case_bool_decide.
  - done.
Qed.

Lemma deliver_all_returns evs st : (deliver_all E evs st).1 = Return tt.
Proof.
  revert st. induction evs as [|ev evs IH]; intros st; [done|].
  cbn [deliver_all]. unfold mbind, M_bind, bind.
  pose proof (deliver_returns ev st) as Hd.
  destruct (deliver E ev st) as [[[]|e] st']; [|done]. apply IH.
Qed.

Lemma deliver_all_frame evs :
  respects (extends_on errors_of observed_kind &&& same_on url_of
            &&& same_on gdpr_of &&& same_on handles_of &&& same_on files_of
            &&& same_on trace_of) (deliver_all E evs).
Proof. respects_auto. Qed.

(** The lookup of a method of the page goes through when there is a
    page, and raises without it. *)
Lemma page_attribute_held name st :
  is_Some (page st.1) → page_attribute name st = (Return tt, st).
Proof.
  destruct st as [s w]. intros [h Hp]. cbn [fst] in Hp.
  unfold page_attribute, mbind, M_bind, bind, get_self. cbn [fst snd]. by rewrite Hp.
Qed.

Lemma page_attribute_missing name st :
  page st.1 = None →
  page_attribute name st
  = (Raise (AttributeError ("'NoneType' object has no attribute '" +:+ name +:+ "'")), st).
Proof.
  destruct st as [s w]. cbn [fst]. intros Hp.
  unfold page_attribute, mbind, M_bind, bind, get_self. cbn [fst snd]. by rewrite Hp.
Qed.

(** A call on the page: one more effect, the flag and the page as they
    were. *)
Lemma on_page_spec {A} (c : effect) (r : engine_call A) st :
  ∃ st', on_page E c r st
         = (match result r with inl e => Raise e | inr a => Return a end, st')
    ∧ trace_of st' = trace_of st ++ [c]
    ∧ gdpr_of st' = gdpr_of st
    ∧ page st'.1 = page st.1.
Proof.
  destruct st as [s w]. unfold on_page, log, mbind, M_bind, bind, modify_world.
  cbn [fst snd].
  pose proof (deliver_all_returns (delivered r) (s, add_trace c w)) as Hr.
  pose proof (deliver_all_frame (delivered r) (s, add_trace c w)) as Hf.
  destruct (deliver_all E (delivered r) (s, add_trace c w)) as [[[]|e] st']; [|done].
  cbn [snd] in Hf. unfold both, same_on in Hf. destruct_and!.
  exists st'. split_and!; [by destruct (result r)|done..|].
  unfold handles_of in *. cbn [fst snd] in *. congruence.
Qed.

Lemma try_selector_activated selector st :
  is_Some (page st.1) →
  activates E selector = true →
  ∃ st', try_except (try_selector E selector) (λ _, mret false) st = (Return true, st')
    ∧ trace_of st' = trace_of st ++ fruitful selector
    ∧ gdpr_of st' = true
    ∧ page st'.1 = page st.1.
Proof.
  unfold activates. intros Hpage Hact.
  destruct (result (locator_is_visible E (locator_of selector)))
    as [e|[]] eqn:Hvis; [done| |done].
  destruct (result (locator_click E (locator_of selector))) as [e|[]] eqn:Hclick;
    [done|].
  unfold try_except, try_selector, mbind, M_bind, bind.
  rewrite page_attribute_held by done.
  destruct (on_page_spec (IsVisible (locator_of selector))
              (locator_is_visible E (locator_of selector)) st)
    as ([s1 w1] & -> & Ht1 & Hg1 & Hp1).
  rewrite Hvis. unfold print, modify_world. cbn [fst snd].
  destruct (on_page_spec (Click (locator_of selector))
              (locator_click E (locator_of selector))
              (s1, add_stdout ("Found accept button with selector: " +:+ selector) w1))
    as ([s2 w2] & -> & Ht2 & Hg2 & Hp2).
  rewrite Hclick. cbn. eexists. split; [done|].
  unfold trace_of, gdpr_of in *. cbn in *. rewrite Ht2, Ht1, <- !app_assoc.
  split_and!; [done..|congruence].
Qed.

Lemma try_selector_swallowed selector st :
  is_Some (page st.1) →
  activates E selector = false →
  ∃ st', try_except (try_selector E selector) (λ _, mret false) st = (Return false, st')
    ∧ trace_of st' = trace_of st ++ fruitless E selector
    ∧ gdpr_of st' = gdpr_of st
    ∧ page st'.1 = page st.1.
Proof.
  unfold activates, fruitless. intros Hpage Hact.
  unfold try_except, try_selector, mbind, M_bind, bind.
  rewrite page_attribute_held by done.
  destruct (on_page_spec (IsVisible (locator_of selector))
              (locator_is_visible E (locator_of selector)) st)
    as ([s1 w1] & -> & Ht1 & Hg1 & Hp1).
  destruct (result (locator_is_visible E (locator_of selector)))
    as [e|[]] eqn:Hvis.
  - by eexists.
  - unfold print, modify_world. cbn [fst snd].
    destruct (on_page_spec (Click (locator_of selector))
                (locator_click E (locator_of selector))
                (s1, add_stdout ("Found accept button with selector: " +:+ selector) w1))
      as ([s2 w2] & -> & Ht2 & Hg2 & Hp2).
    destruct (result (locator_click E (locator_of selector))) as [e|[]] eqn:Hclick;
      [|done].
    cbn. eexists. split; [done|].
    unfold trace_of, gdpr_of in *. cbn in *. split_and!; [|congruence..].
    rewrite Ht2, Ht1, <- !app_assoc. done.
  - by eexists.
Qed.

(** Without a page the lookup of [locator] raises, which the loop
    swallows like any other failure: no call is made. *)
Lemma try_selector_without_page selector st :
  page st.1 = None →
  try_except (try_selector E selector) (λ _, mret false) st = (Return false, st).
Proof.
  intros Hp. unfold try_except, try_selector, mbind, M_bind, bind.
  by rewrite page_attribute_missing.
Qed.

(** The loop passes over the candidates that are not activated and stops
    at the first that is. *)
Lemma try_selectors_stops pre selector post st :
  is_Some (page st.1) →
  Forall (λ x, activates E x = false) pre →
  activates E selector = true →
  ∃ st', try_selectors E (pre ++ selector :: post) st = (Return true, st')
    ∧ trace_of st' = trace_of st ++ concat (fruitless E <$> pre) ++ fruitful selector
    ∧ gdpr_of st' = true.
Proof.
  intros Hpage Hpre Hact. revert st Hpage.
  induction Hpre as [|x pre Hx _ IH]; intros st Hpage.
  - cbn [app try_selectors]. unfold mbind, M_bind, bind.
    destruct (try_selector_activated selector st Hpage Hact) as (st' & -> & Ht & Hg & _).
    by exists st'.
  - rewrite <- app_comm_cons. cbn [try_selectors]. unfold mbind, M_bind, bind.
    destruct (try_selector_swallowed x st Hpage Hx) as (st1 & -> & Ht1 & Hg1 & Hp1).
    destruct (IH st1) as (st' & -> & Ht & Hg); [by rewrite Hp1|].
    exists st'. split_and!; [done| |done].
    rewrite Ht, Ht1, fmap_cons. cbn [concat]. by rewrite <- !app_assoc.
Qed.

(** With no candidate activated the loop tries them all and gives up. *)
Lemma try_selectors_exhausts selectors st :
  is_Some (page st.1) →
  Forall (λ x, activates E x = false) selectors →
  ∃ st', try_selectors E selectors st = (Return false, st')
    ∧ trace_of st' = trace_of st ++ concat (fruitless E <$> selectors)
    ∧ gdpr_of st' = gdpr_of st.
Proof.
  intros Hpage Hall. revert st Hpage. induction Hall as [|x l Hx _ IH]; intros st Hpage.
  - cbn. eexists. split_and!; [done| |done].
    unfold trace_of. cbn. by rewrite app_nil_r.
  - cbn [try_selectors]. unfold mbind, M_bind, bind.
    destruct (try_selector_swallowed x st Hpage Hx) as (st1 & -> & Ht1 & Hg1 & Hp1).
    destruct (IH st1) as (st' & -> & Ht & Hg); [by rewrite Hp1|].
    exists st'. split_and!; [done| |congruence].
    rewrite Ht, Ht1, fmap_cons. cbn [concat]. by rewrite <- !app_assoc.
Qed.

(** Without a page the loop gives up on every candidate at once. *)
Lemma try_selectors_without_page selectors s w :
  page s = None →
  try_selectors E selectors (s, w)
  = (Return false, (s, add_stdout "No 'Accept All' button found or unable to click" w)).
Proof.
  intros Hp. induction selectors as [|x l IH]; [done|].
  cbn [try_selectors]. unfold mbind, M_bind, bind.
  by rewrite try_selector_without_page.
Qed.

(** The resolver as a whole, from the lemmas on the loop. *)
Lemma resolver_lemma_stops st pre selector post :
  is_Some (page st.1) →
  accept_selectors = pre ++ selector :: post →
  Forall (λ x, activates E x = false) pre →
  activates E selector = true →
  ∃ st', find_and_click_accept_button E st = (Return true, st')
    ∧ trace_of st' = trace_of st ++ concat (fruitless E <$> pre) ++ fruitful selector
    ∧ gdpr_of st' = true.
Proof.
  destruct st as [s w]. intros Hpage Hlist Hpre Hact.
  unfold find_and_click_accept_button, mbind, M_bind, bind, print, modify_world.
  cbn [fst snd]. rewrite Hlist.
  destruct (try_selectors_stops pre selector post
              (s, add_stdout "Looking for 'Accept All' cookie button..." w) Hpage Hpre Hact)
    as (st' & -> & Ht & Hg).
  by exists st'.
Qed.

Lemma resolver_lemma_exhausts st :
  is_Some (page st.1) →
  Forall (λ x, activates E x = false) accept_selectors →
  ∃ st', find_and_click_accept_button E st = (Return false, st')
    ∧ trace_of st' = trace_of st ++ concat (fruitless E <$> accept_selectors)
    ∧ gdpr_of st' = gdpr_of st.
Proof.
  destruct st as [s w]. intros Hpage Hall.
  unfold find_and_click_accept_button, mbind, M_bind, bind, print, modify_world.
  cbn [fst snd].
  destruct (try_selectors_exhausts accept_selectors
              (s, add_stdout "Looking for 'Accept All' cookie button..." w) Hpage Hall)
    as (st' & -> & Ht & Hg).
  by exists st'.
Qed.

Lemma resolver_lemma_without_page st :
  page st.1 = None →
  ∃ st', find_and_click_accept_button E st = (Return false, st')
    ∧ trace_of st' = trace_of st
    ∧ gdpr_of st' = gdpr_of st.
Proof.
  destruct st as [s w]. cbn [fst]. intros Hp.
  unfold find_and_click_accept_button, mbind, M_bind, bind, print, modify_world.
  cbn [fst snd]. rewrite try_selectors_without_page by done. by eexists.
Qed.

End Resolver.

(** C4. On an object that holds a page the resolver tries the candidates
    in the order of the list. A candidate whose visibility check raises or
    says no, or whose click raises, is passed over and the next one is
    tried; at the first candidate that is visible and whose click goes
    through it sets the flag, pauses and returns [True] without trying the
    rest; with no such candidate it returns [False] after trying them all.
    Without a page every candidate fails at the lookup of [locator], which
    is swallowed as well: the resolver returns [False] and has called
    nothing. *)
Theorem resolver_first_activated_wins (E : environment) (st : state) :
  (is_Some (page st.1) →
   ∀ pre selector post,
     accept_selectors = pre ++ selector :: post →
     Forall (λ x, activates E x = false) pre →
     activates E selector = true →
     ∃ st', find_and_click_accept_button E st = (Return true, st')
       ∧ trace_of st' = trace_of st ++ concat (fruitless E <$> pre) ++ fruitful selector
       ∧ gdpr_of st' = true)
  ∧ (is_Some (page st.1) →
     Forall (λ x, activates E x = false) accept_selectors →
     ∃ st', find_and_click_accept_button E st = (Return false, st')
       ∧ trace_of st' = trace_of st ++ concat (fruitless E <$> accept_selectors)
       ∧ gdpr_of st' = gdpr_of st)
  ∧ (page st.1 = None →
     ∃ st', find_and_click_accept_button E st = (Return false, st')
       ∧ trace_of st' = trace_of st
       ∧ gdpr_of st' = gdpr_of st)
  ∧ (∀ selector,
       activates E selector = false ↔
       (∃ e, result (locator_is_visible E (locator_of selector)) = inl e)
       ∨ result (locator_is_visible E (locator_of selector)) = inr false
       ∨ (result (locator_is_visible E (locator_of selector)) = inr true
          ∧ ∃ e, result (locator_click E (locator_of selector)) = inl e)).
Proof.
  split_and!.
  - intros Hpage pre selector post. by apply resolver_lemma_stops.
  - apply resolver_lemma_exhausts.
  - apply resolver_lemma_without_page.
  - intros selector. unfold activates.
    destruct (result (locator_is_visible E (locator_of selector))) as [e|[]];
      destruct (result (locator_click E (locator_of selector))) as [e'|[]];
      naive_solver.
Qed.

Lemma resolver_first_activated_wins_witness :
  ∃ st', find_and_click_accept_button banner_page (after_setup, fresh_world ∅)
         = (Return true, st')
    ∧ trace_of st'
      = [IsVisible "button:has-text('Accept All')";
         IsVisible "button:has-text('Accept all')";
         IsVisible "button:has-text('ACCEPT ALL')";
         IsVisible "button:has-text('Accept All Cookies')";
         IsVisible "button:has-text('Accept all cookies')";
         IsVisible "#accept-all"; Click "#accept-all";
         IsVisible "#acceptAll"; Click "#acceptAll"; Sleep 2]
    ∧ gdpr_of st' = true.
Proof.
  destruct (resolver_first_activated_wins banner_page (after_setup, fresh_world ∅))
    as [H _].
  apply (H ltac:(by eexists) (take 6 accept_selectors) "#acceptAll"
           (drop 7 accept_selectors)).
  - reflexivity.
  - by repeat constructor.
  - reflexivity.
Defined.

(** ** The stages of a run, put together *)

Lemma writes_none (P : effect → Prop) (t : list effect) :
  (∀ c, P c → is_write c = false) → Forall P t → writes t = [].
Proof.
  intros HP. induction 1 as [|c t Hc _ IH]; [done|].
  unfold writes in *. cbn [omap list_omap]. specialize (HP c Hc).
  by destruct c.
Qed.

Lemma extends_writes (P : effect → Prop) (st st' : state) :
  (∀ c, P c → is_write c = false) →
  extends_on trace_of P st st' → writes (trace_of st') = writes (trace_of st).
Proof.
  intros HP (new & -> & Hnew).
  by rewrite writes_app, (writes_none P new), app_nil_r.
Qed.

Lemma first_true {A} (f : A → bool) (l : list A) :
  existsb f l = true →
  ∃ pre x post, l = pre ++ x :: post ∧ Forall (λ y, f y = false) pre ∧ f x = true.
Proof.
  induction l as [|a l IH]; [done|]. cbn [existsb].
  destruct (f a) eqn:Ha.
  - intros _. by exists [], a, l.
  - intros (pre & x & post & -> & Hpre & Hx)%IH.
    exists (a :: pre), x, post. split_and!; [done| |done]. by constructor.
Qed.

Lemma none_true {A} (f : A → bool) (l : list A) :
  existsb f l = false → Forall (λ y, f y = false) l.
Proof.
  induction l as [|a l IH]; [done|]. cbn [existsb].
  intros [? ?]%orb_false_iff. constructor; auto.
Qed.

(** Bring the frame of a method to bear on an equation for one call. *)
Ltac frame lem H :=
  let F := fresh "F" in
  lazymatch type of H with
  | ?m ?st = (_, _) =>
      pose proof (lem st) as F; rewrite H in F; cbn [snd] in F;
      unfold both, same_on, sticky in F; destruct_and? F
  end.

Ltac frame_at lem st :=
  let F := fresh "F" in
  pose proof (lem st) as F; unfold both, same_on, sticky in F; destruct_and? F.

Section Stages.
Variable E : environment.

(** The flag after the resolver. *)
Lemma find_and_click_accept_button_flag st :
  is_Some (page st.1) →
  ∃ b st', find_and_click_accept_button E st = (Return b, st')
    ∧ b = existsb (activates E) accept_selectors
    ∧ gdpr_of st' = gdpr_of st || b.
Proof.
  intros Hpage. destruct (existsb (activates E) accept_selectors) eqn:Hex.
  - apply first_true in Hex as (pre & x & post & Hl & Hpre & Hx).
    destruct (resolver_lemma_stops E st pre x post Hpage Hl Hpre Hx) as (st' & Hr & _ & Hg).
    exists true, st'. rewrite Hg. by rewrite orb_true_r.
  - apply none_true in Hex.
    destruct (resolver_lemma_exhausts E st Hpage Hex) as (st' & Hr & _ & Hg).
    exists false, st'. rewrite Hg. by rewrite orb_false_r.
Qed.

Lemma settle_and_scroll_flag : respects (same_on gdpr_of) (settle_and_scroll E).
Proof. respects_auto. Qed.

Lemma navigate_body_flag st u :
  is_Some (page st.1) →
  url_of st = Some u →
  gdpr_of (navigate_body E st).2 = gdpr_of st || consent_activated E u.
Proof.
  destruct st as [s w]. unfold url_of. cbn [fst]. intros Hpage Hu.
  unfold navigate_body, goto_site_url, sleep, log, print.
  unfold mbind, M_bind, bind, get_self, modify_world. cbn [fst snd].
  rewrite page_attribute_held by done. cbn [fst snd]. rewrite Hu.
  match goal with
  | |- context [on_page E ?c ?r ?st] =>
      destruct (on_page_spec E c r st) as ([s2 w2] & -> & _ & Hg2 & Hp2)
  end.
  unfold consent_activated.
  destruct (result (page_goto E u)) as [e|[]].
  - cbn [snd]. rewrite Hg2. unfold gdpr_of. cbn. by rewrite orb_false_r.
  - cbn [fst snd] in *.
    match goal with
    | |- context [find_and_click_accept_button E ?st] =>
        destruct (find_and_click_accept_button_flag st) as (b & st3 & -> & -> & Hg3);
          [cbn [fst]; by rewrite Hp2|]
    end.
    rewrite (settle_and_scroll_flag st3), Hg3. unfold gdpr_of in *. cbn in *.
    by rewrite Hg2.
Qed.

Lemma navigate_flag st u :
  is_Some (page st.1) →
  url_of st = Some u →
  gdpr_of (navigate_and_capture_errors E st).2 = gdpr_of st || consent_activated E u.
Proof.
  intros Hpage Hu. rewrite <- (navigate_body_flag st u Hpage Hu).
  unfold navigate_and_capture_errors, try_except.
  by destruct (navigate_body E st) as [[[]|e] [s' w']].
Qed.

(** When [setup_browser] returns, the object holds all three handles. *)
Lemma setup_browser_holds st st' :
  setup_browser E st = (Return tt, st') →
  is_Some (playwright st'.1) ∧ browser st'.1 = Some BrowserObj ∧ page st'.1 = Some PageObj.
Proof.
  destruct st as [s w].
  unfold setup_browser, acquire, log, print.
  unfold mbind, M_bind, bind, get_self, get_world, modify_self, modify_world,
    mret, M_ret, ret, raise.
  cbn [fst snd].
  destruct (playwright s) eqn:Hs, (playwright_start E), (chromium_launch E),
    (browser_new_context E), (context_new_page E);
    cbn; intros [= <-]; cbn; rewrite ?Hs; by split_and!.
Qed.

End Stages.

(** Effects that are not writes leave the written files as they were. *)
Ltac all_writes :=
  repeat match goal with
         | H : extends_on trace_of _ _ _ |- _ =>
             apply extends_writes in H; [|by intros []]
         end.

Section Outcome.
Variable E : environment.
Variable disk : gmap string output_data.

(** What a run comes to. Either it stops before the page is opened, with
    no event and no file; or it opens the page from a state [st2] without
    events, and what is written afterwards depends on whether the
    navigation left events and on whether the file can be written. *)
Lemma run_outcome st :
  run_path E (init, fresh_world disk) st →
  let st0 := (print "Starting console error scraper..." (init, fresh_world disk)).2 in
  (((∃ e st1, load_env_file E st0 = (Raise e, st1))
    ∨ (∃ st1 e st2, load_env_file E st0 = (Return tt, st1)
         ∧ setup_browser E st1 = (Raise e, st2)))
   ∧ errors_of st = [] ∧ gdpr_of st = false
   ∧ writes (trace_of st) = [] ∧ files_of st = disk)
  ∨ ∃ st1 st2 st3 u,
      load_env_file E st0 = (Return tt, st1)
      ∧ setup_browser E st1 = (Return tt, st2)
      ∧ navigate_and_capture_errors E st2 = (Return tt, st3)
      ∧ errors_of st2 = [] ∧ gdpr_of st2 = false ∧ url_of st2 = Some u
      ∧ lacks_protocol u = false
      ∧ handles_of st3 = handles_of st2
      ∧ errors_of st = errors_of st3 ∧ gdpr_of st = gdpr_of st3
      ∧ url_of st = Some u
      ∧ ((errors_of st3 = [] ∧ writes (trace_of st) = [] ∧ files_of st = disk)
         ∨ (errors_of st3 ≠ []
            ∧ writable E (output_path (domain_of_url (check_bracketed_netloc E) u))
            ∧ writes (trace_of st)
              = [(output_path (domain_of_url (check_bracketed_netloc E) u),
                  document E st.1 u (clock st3.2))]
            ∧ files_of st
              = <[output_path (domain_of_url (check_bracketed_netloc E) u)
                  := document E st.1 u (clock st3.2)]> disk)
         ∨ (errors_of st3 ≠ []
            ∧ ¬ writable E (output_path (domain_of_url (check_bracketed_netloc E) u))
            ∧ writes (trace_of st) = [] ∧ files_of st = disk)).
Proof.
  intros Hpath st0.
  assert (errors_of st0 = [] ∧ gdpr_of st0 = false ∧ url_of st0 = None
          ∧ files_of st0 = disk ∧ trace_of st0 = [] ∧ writes [] = [])
    as (He0 & Hg0 & Hu0 & Hf0 & Ht0 & Hw0) by done.
  inversion Hpath as [e st1 Hl|st1 e st2 Hl Hs|st1 st2 st3 e st4 Hl Hs Hn Hv
                      |st1 st2 st3 st4 Hl Hs Hn Hv]; subst st; fold st0 in Hl.
  - left. frame (load_env_file_frame E) Hl.
    frame_at (report_frame e) st1. frame_at cleanup_frame (report e st1).2.
    all_writes. split_and!; [eauto|congruence..].
  - left. frame (load_env_file_frame E) Hl. frame (setup_browser_frame E) Hs.
    frame_at (report_frame e) st2. frame_at cleanup_frame (report e st2).2.
    all_writes. split_and!; [eauto 10|congruence..].
  - destruct (load_env_file_returns E _ _ Hl) as (u & Hu & Hp).
    frame (load_env_file_frame E) Hl. frame (setup_browser_frame E) Hs.
    frame (navigate_frame E) Hn.
    frame_at (report_frame e) st4. frame_at cleanup_frame (report e st4).2.
    right. exists st1, st2, st3, u.
    destruct st3 as [s3 w3].
    assert (site_url s3 = Some u) as Hu3
      by (unfold url_of in *; cbn in *; congruence).
    destruct (console_errors s3) as [|d ds] eqn:Hd.
    { by rewrite save_errors_to_json_skips in Hv. }
    destruct (decide (writable E (output_path (domain_of_url (check_bracketed_netloc E) u))))
      as [Hw|Hw].
    { destruct (save_errors_to_json_writes E s3 w3 u) as (w4 & Hv' & _);
        [by rewrite Hd|done..|]. by rewrite Hv' in Hv. }
    destruct (save_errors_to_json_fails E s3 w3 u) as (e' & w4 & Hv' & Htr & Hfl & _);
      [by rewrite Hd|done..|].
    rewrite Hv' in Hv. injection Hv as -> <-.
    assert (url_of (cleanup (report e (s3, w4)).2).2 = Some u) as Hufin
      by (unfold url_of in *; cbn in *; congruence).
    assert (errors_of (cleanup (report e (s3, w4)).2).2 = errors_of (s3, w3)) as Hefin
      by (unfold errors_of in *; cbn in *; congruence).
    assert (gdpr_of (cleanup (report e (s3, w4)).2).2 = gdpr_of (s3, w3)) as Hgfin
      by (unfold gdpr_of in *; cbn in *; congruence).
    split_and!; [done|done|done|congruence..|].
    right. right. split; [unfold errors_of; cbn; by rewrite Hd|]. split; [done|].
    all_writes. split.
    + transitivity (writes (trace_of (s3, w4))); [congruence|].
      unfold trace_of at 1. cbn [snd]. rewrite Htr, writes_app. cbn. rewrite app_nil_r.
      change (trace w3) with (trace_of (s3, w3)). congruence.
    + transitivity (files_of (s3, w4)); [congruence|].
      unfold files_of at 1. cbn [snd]. rewrite Hfl.
      change (files w3) with (files_of (s3, w3)). congruence.
  - destruct (load_env_file_returns E _ _ Hl) as (u & Hu & Hp).
    frame (load_env_file_frame E) Hl. frame (setup_browser_frame E) Hs.
    frame (navigate_frame E) Hn. frame (save_errors_to_json_frame E) Hv.
    frame_at cleanup_frame st4.
    right. exists st1, st2, st3, u.
    assert (url_of (cleanup st4).2 = Some u) as Hufin by congruence.
    split_and!; [done|done|done|congruence..|].
    destruct st3 as [s3 w3].
    destruct (console_errors s3) as [|d ds] eqn:Hd.
    + left. rewrite save_errors_to_json_skips in Hv by done. simplify_eq.
      all_writes. split_and!; [done| |].
      * assert (writes (trace_of (s3, add_stdout "No console errors captured" w3))
                = writes (trace_of (s3, w3))) by done.
        congruence.
      * assert (files_of (s3, add_stdout "No console errors captured" w3)
                = files_of (s3, w3)) by done.
        congruence.
    + right. left. split; [unfold errors_of; cbn; by rewrite Hd|].
      assert (site_url s3 = Some u) as Hu3
        by (unfold url_of in *; cbn in *; congruence).
      destruct (decide (writable E (output_path (domain_of_url (check_bracketed_netloc E) u))))
        as [Hw|Hw]; last first.
      { destruct (save_errors_to_json_fails E s3 w3 u) as (e' & w4 & Hv' & _);
          [by rewrite Hd|done..|]. by rewrite Hv' in Hv. }
      split; [done|].
      destruct (save_errors_to_json_writes E s3 w3 u) as (w4 & Hv' & Htr & Hfl & _);
        [by rewrite Hd|done..|].
      rewrite Hv' in Hv. simplify_eq.
      cbn [snd].
      assert (document E (cleanup (s3, w4)).2.1 u (clock w3) = document E s3 u (clock w3))
        as ->.
      { unfold document. unfold errors_of, gdpr_of in *. cbn in *.
        repeat match goal with
               | H : console_errors (cleanup _).2.1 = _ |- _ => rewrite H
               | H : gdpr_present (cleanup _).2.1 = _ |- _ => rewrite H
               end. done. }
      all_writes. split.
      * transitivity (writes (trace_of (s3, w4))); [done|].
        unfold trace_of at 1. cbn [snd]. rewrite Htr, writes_app.
        change (trace w3) with (trace_of (s3, w3)).
        assert (writes (trace_of (s3, w3)) = []) as -> by congruence.
        done.
      * transitivity (files_of (s3, w4)); [done|].
        unfold files_of at 1. cbn [snd]. rewrite Hfl. f_equal.
        change (files w3) with (files_of (s3, w3)). congruence.
Qed.

End Outcome.

(** ** The output file: C1, C3, C9 *)



(** C3. In every run that writes an output file, [GDPR_PRESENT] is
    ["TRUE"] when the page opened and the resolver activated a candidate,
    and ["FALSE"] otherwise; the flag of the run says the same. *)
Theorem gdpr_present_field (E : environment) (disk : gmap string output_data) :
  ∃ s w,
    main E disk = (Return tt, (s, w))
    ∧ (∀ path data, (path, data) ∈ writes (trace w) →
       ∃ u,
         site_url s = Some u
         ∧ gdpr_present s = consent_activated E u
         ∧ out_GDPR_PRESENT data = (if consent_activated E u then "TRUE" else "FALSE"))
    ∧ (∀ u,
         consent_activated E u = true ↔
         (∃ x, result (page_goto E u) = inr x)
         ∧ ∃ selector, selector ∈ accept_selectors ∧ activates E selector = true).
Proof.
  unfold main. destruct (run_unfolds E (init, fresh_world disk)) as ([s w] & -> & Hpath).
  exists s, w. split; [done|]. split.
  - intros path data Hin.
    destruct (run_outcome E disk _ Hpath)
      as [(_ & _ & _ & Hw & _)
         |(st1 & st2 & st3 & u & _ & Hs & Hn & _ & Hg2 & Hu2 & _ & _ & _ & Hg & Hu
           & [(_ & Hw & _)|[(_ & _ & Hw & _)|(_ & _ & Hw & _)]])];
      unfold trace_of in Hw; cbn [snd] in Hw; rewrite Hw in Hin;
      [by apply elem_of_nil in Hin..| |by apply elem_of_nil in Hin].
    apply list_elem_of_singleton in Hin as [= -> ->].
    destruct (setup_browser_holds E _ _ Hs) as (_ & _ & Hpg).
    pose proof (navigate_flag E st2 u ltac:(by rewrite Hpg) Hu2) as Hflag.
    rewrite Hn, Hg2 in Hflag.
    cbn [snd orb] in Hflag. unfold gdpr_of, url_of in *. cbn [fst] in *.
    exists u. split_and!; [done|congruence|].
    unfold document. cbn [out_GDPR_PRESENT]. by rewrite Hg, Hflag.
  - intros u. unfold consent_activated.
    destruct (result (page_goto E u)) as [e|x].
    + split; [done|]. by intros [[x [=]] _].
    + rewrite existsb_exists. setoid_rewrite <- list_elem_of_In. naive_solver.
Qed.

(** C9. Every method of the run leaves the events already in the sequence
    where they are and as they are, and appends only events of the kinds
    [error], [warning], [page_error] and [navigation_error]; a console
    message of another severity changes nothing at all; and the [errors]
    array of a written document is the sequence the run ends with. *)
Theorem event_sequence_append_only (E : environment) :
  (∀ msg page_url,
     respects (extends_on errors_of valid_kind) (handle_console_message E msg page_url))
  ∧ (∀ error page_url,
       respects (extends_on errors_of valid_kind) (handle_page_error E error page_url))
  ∧ respects (extends_on errors_of valid_kind) (load_env_file E)
  ∧ respects (extends_on errors_of valid_kind) (setup_browser E)
  ∧ respects (extends_on errors_of valid_kind) (find_and_click_accept_button E)
  ∧ respects (extends_on errors_of valid_kind) (navigate_and_capture_errors E)
  ∧ respects (extends_on errors_of valid_kind) (save_errors_to_json E)
  ∧ respects (extends_on errors_of valid_kind) cleanup
  ∧ respects (extends_on errors_of valid_kind) (run E)
  ∧ (∀ msg page_url st,
       msg_type msg ∉ ["error"; "warning"] →
       handle_console_message E msg page_url st = (Return tt, st))
  ∧ (∀ disk, ∃ s w,
       main E disk = (Return tt, (s, w))
       ∧ ∀ path data, (path, data) ∈ writes (trace w) → out_errors data = console_errors s).
Proof.
  split_and!; try (intros; by respects_auto).
  - intros msg page_url st Hno. unfold handle_console_message.
    by rewrite bool_decide_eq_false_2.
  - intros disk. unfold main.
    destruct (run_unfolds E (init, fresh_world disk)) as ([s w] & -> & Hpath).
    exists s, w. split; [done|]. intros path data Hin.
    destruct (run_outcome E disk _ Hpath)
      as [(_ & _ & _ & Hw & _)
         |(st1 & st2 & st3 & u & _ & _ & _ & _ & _ & _ & _ & _ & _ & _ & _
           & [(_ & Hw & _)|[(_ & _ & Hw & _)|(_ & _ & Hw & _)]])];
      unfold trace_of in Hw; cbn [snd] in Hw; rewrite Hw in Hin;
      [by apply elem_of_nil in Hin..| |by apply elem_of_nil in Hin].
    by apply list_elem_of_singleton in Hin as [= -> ->].
Qed.

(** ** Navigation failures: C5 *)

Section Navigation.
Variable E : environment.




(** An exception in the body becomes one event, and the method returns. *)
Lemma navigate_catches st e st' :
  navigate_body E st = (Raise e, st') →
  ∃ st'', navigate_and_capture_errors E st = (Return tt, st'')
    ∧ errors_of st'' = errors_of st' ++ [navigation_error E (clock st'.2) e (url_of st')].
Proof.
  intros Hb. unfold navigate_and_capture_errors, try_except. rewrite Hb.
  destruct st' as [s' w']. by eexists.
Qed.


(** A navigation that raises makes the body raise. *)
Lemma navigate_body_goto_raises s w u e :
  is_Some (page s) → site_url s = Some u → result (page_goto E u) = inl e →
  ∃ st', navigate_body E (s, w) = (Raise e, st').
Proof.
  intros Hpage Hu Hr. unfold navigate_body, goto_site_url, print.
  unfold mbind, M_bind, bind, get_self, modify_world. cbn [fst snd].
  rewrite page_attribute_held by done. cbn [fst snd]. rewrite Hu.
  match goal with
  | |- context [on_page E ?c ?r ?st] =>
      destruct (on_page_spec E c r st) as (st2 & -> & _)
  end.
  rewrite Hr. by eexists.
Qed.

(** Without a page the body raises at the lookup of [goto], before any
    call. *)
Lemma navigate_body_without_page s w :
  page s = None →
  navigate_body E (s, w)
  = (Raise (AttributeError "'NoneType' object has no attribute 'goto'"),
     (s, add_stdout ("Navigating to: " +:+ default "None" (site_url s)) w)).
Proof.
  intros Hp. unfold navigate_body, goto_site_url, print.
  unfold mbind, M_bind, bind, get_self, modify_world. cbn [fst snd].
  by rewrite page_attribute_missing.
Qed.

End Navigation.




(** ** Releasing the browser: C8 *)

Lemma Forall_extends {A} (P Q : A → Prop) (l l' : list A) :
  (∀ x, P x → Q x) → Forall Q l → extends P l l' → Forall Q l'.
Proof.
  intros HPQ Hl (new & -> & Hnew). apply Forall_app. split; [done|].
  eapply Forall_impl; eauto.
Qed.

(** Carry a property of all elements of a component along the frames. *)
Ltac carry :=
  repeat match goal with
         | H : extends_on ?f ?P ?a ?b, HF : Forall ?Q (?f ?a) |- _ =>
             lazymatch goal with
             | _ : Forall Q (f b) |- _ => fail
             | _ => assert (Forall Q (f b))
                      by (eapply Forall_extends; [|exact HF|exact H];
                          first [done | by intros []])
             end
         | H : ?f ?b = ?f ?a, HF : Forall ?Q (?f ?a) |- _ =>
             lazymatch goal with
             | _ : Forall Q (f b) |- _ => fail
             | _ => assert (Forall Q (f b)) by (rewrite H; exact HF)
             end
         end.

Section Cleanup.
Variable E : environment.

Lemma covered_same st st' : handles_of st' = handles_of st → covered st → covered st'.
Proof.
  unfold handles_of, covered. intros [= Hpw Hbr Hpg Hl]. by rewrite Hpw, Hbr, Hl.
Qed.

(** [setup_browser] stores the handle of what it has acquired before it
    acquires more. *)
Lemma setup_browser_covered st : covered st → covered (setup_browser E st).2.
Proof.
  destruct st as [s w]. unfold covered. cbn [fst snd]. intros (H1 & H2 & H3 & H4).
  unfold setup_browser, acquire, log, print.
  unfold mbind, M_bind, bind, get_self, get_world, modify_self, modify_world,
    mret, M_ret, ret, raise.
  cbn [fst snd].
  destruct (playwright s) eqn:Hs, (playwright_start E), (chromium_launch E),
    (browser_new_context E), (context_new_page E);
    cbn; rewrite ?Hs; split_and!; eauto.
Qed.

(** [cleanup] releases all that is covered, each handle once. *)
Lemma cleanup_releases s w :
  covered (s, w) →
  ∃ w', cleanup (s, w) = (Return tt, (s, w'))
    ∧ live w' = nothing_held
    ∧ trace w' = trace w ++ teardown s
    ∧ stdout w' = stdout w ++ [cleanup_line].
Proof.
  unfold covered. cbn [fst snd]. intros (H1 & H2 & H3 & H4).
  unfold cleanup, release, log, print, teardown.
  unfold mbind, M_bind, bind, get_self, get_world, modify_world, mret, M_ret, ret.
  cbn [fst snd].
  destruct (live w) as [r1 r2 r3 r4] eqn:Hl. cbn in *.
  destruct (page s), (browser s), (playwright s), r1, r2, r3, r4;
    try match goal with
        | H : true = true → is_Some None |- _ => by destruct (H eq_refl) as [? [=]]
        end;
    cbn; rewrite ?Hl; cbn; eexists; (split; [reflexivity|]); cbn;
    by rewrite ?app_nil_r, <- ?app_assoc.
Qed.

(** Up to [cleanup] a run holds only what is covered, makes no teardown
    call and does not print the line of [cleanup]. *)
Lemma run_before_cleanup disk st :
  run_path E (init, fresh_world disk) st →
  ∃ st', st = (cleanup st').2 ∧ covered st'
    ∧ Forall (λ c, is_teardown c = false) (trace_of st')
    ∧ Forall quiet (stdout_of st').
Proof.
  set (st0 := (print "Starting console error scraper..." (init, fresh_world disk)).2).
  assert (covered st0) as Hc0 by (unfold covered; cbn; by split_and!).
  assert (Forall (λ c, is_teardown c = false) (trace_of st0)) as Ht0 by constructor.
  assert (Forall quiet (stdout_of st0)) as Hq0 by by repeat constructor.
  intros Hpath.
  inversion Hpath as [e st1 Hl|st1 e st2 Hl Hs|st1 st2 st3 e st4 Hl Hs Hn Hv
                      |st1 st2 st3 st4 Hl Hs Hn Hv]; subst st; fold st0 in Hl.
  - frame (load_env_file_frame E) Hl. frame_at (report_frame e) st1.
    exists (report e st1).2. carry.
    split_and!; [done| |done..]. eauto using covered_same.
  - frame (load_env_file_frame E) Hl. frame (setup_browser_frame E) Hs.
    pose proof (setup_browser_covered st1) as Hc2. rewrite Hs in Hc2.
    frame_at (report_frame e) st2.
    exists (report e st2).2. carry.
    split_and!; [done| |done..]. eauto 6 using covered_same.
  - frame (load_env_file_frame E) Hl. frame (setup_browser_frame E) Hs.
    pose proof (setup_browser_covered st1) as Hc2. rewrite Hs in Hc2.
    frame (navigate_frame E) Hn. frame (save_errors_to_json_frame E) Hv.
    frame_at (report_frame e) st4.
    exists (report e st4).2. carry.
    split_and!; [done| |done..]. eauto 8 using covered_same.
  - frame (load_env_file_frame E) Hl. frame (setup_browser_frame E) Hs.
    pose proof (setup_browser_covered st1) as Hc2. rewrite Hs in Hc2.
    frame (navigate_frame E) Hn. frame (save_errors_to_json_frame E) Hv.
    exists st4. carry.
    split_and!; [done| |done..]. eauto 8 using covered_same.
Qed.

End Cleanup.

Lemma line_count_quiet (out : list string) :
  Forall quiet out → line_count cleanup_line (out ++ [cleanup_line]) = 1.
Proof.
  intros Hq. unfold line_count. rewrite filter_app, length_app.
  rewrite filter_cons_True, filter_nil by done.
  assert (filter (λ l, l = cleanup_line) out = []) as ->; [|done].
  induction Hq as [|l out Hl _ IH]; [done|]. by rewrite filter_cons_False.
Qed.

(** C8. However a run ends, it ends after one pass through [cleanup]:
    nothing of the engine is held any more, the teardown calls are the
    last effects of the run, one for each handle the scraper holds and
    none before, and the line that closes [cleanup] is printed once. *)
Theorem cleanup_exactly_once (E : environment) (disk : gmap string output_data) :
  ∃ s w before,
    main E disk = (Return tt, (s, w))
    ∧ live w = nothing_held
    ∧ trace w = before ++ teardown s
    ∧ Forall (λ c, is_teardown c = false) before
    ∧ line_count cleanup_line (stdout w) = 1.
Proof.
  unfold main. destruct (run_unfolds E (init, fresh_world disk)) as (st & -> & Hpath).
  destruct (run_before_cleanup E disk st Hpath) as ([s' w'] & -> & Hc & Ht & Hq).
  destruct (cleanup_releases s' w' Hc) as (w'' & -> & Hl & Htr & Hout).
  exists s', w'', (trace w'). split_and!; [done..|].
  rewrite Hout. by apply line_count_quiet.
Qed.

(** The same on two machines: one where everything works and the page
    shows a banner, one where the browser does not start. *)
Example cleanup_after_a_full_run :
  ∃ s w, main banner_page ∅ = (Return tt, (s, w))
    ∧ live w = nothing_held
    ∧ filter (λ c, is_acquisition c = true ∨ is_teardown c = true) (trace w)
      = [PlaywrightStart; ChromiumLaunch; NewContext; NewPage;
         PageOn "console"; PageOn "pageerror";
         PageClose; BrowserClose; PlaywrightStop].
Proof.
  eexists _, _. split; [vm_compute; reflexivity|]. split; [reflexivity|].
  vm_compute. reflexivity.
Qed.

Example cleanup_after_a_failed_launch :
  ∃ s w, main no_browser ∅ = (Return tt, (s, w))
    ∧ live w = nothing_held
    ∧ trace w = [PlaywrightStart; ChromiumLaunch; PlaywrightStop]
    ∧ writes (trace w) = [].
Proof.
  eexists _, _. split; [vm_compute; reflexivity|]. split_and!; vm_compute; reflexivity.
Qed.

(** * Further properties of the code *)

(** ** The error summary *)

Section Tally.
Implicit Types (t k : string) (acc : list (string * nat)) (errors : list error_data).

Lemma bump_keys t acc :
  (bump t acc).*1 = acc.*1 ++ (if decide (t ∈ acc.*1) then [] else [t]).
Proof.
  induction acc as [|[k n] acc IH]; [done|]. cbn [bump].
  destruct (decide (k = t)) as [->|Hne]; cbn [fmap list_fmap fst].
  - rewrite decide_True by left. by rewrite app_nil_r.
  - rewrite IH. cbn. f_equal.
    destruct (decide (t ∈ acc.*1)) as [Hin|Hout].
    + by rewrite decide_True by by right.
    + rewrite decide_False; [done|]. rewrite elem_of_cons. naive_solver.
Qed.

Lemma bump_elem_of t acc k n :
  NoDup (acc.*1) →
  (k, n) ∈ bump t acc ↔
    (k ≠ t ∧ (k, n) ∈ acc)
    ∨ (k = t ∧ ((∃ m, (t, m) ∈ acc ∧ n = S m) ∨ ((t ∉ acc.*1) ∧ n = 1))).
Proof.
  induction acc as [|[k' n'] acc IH]; intros Hnd.
  - cbn. rewrite list_elem_of_singleton. setoid_rewrite elem_of_nil. naive_solver.
  - rewrite fmap_cons in Hnd. apply NoDup_cons in Hnd as [Hk' Hnd]. specialize (IH Hnd).
    cbn [fst] in Hk'.
    assert (∀ m, (k', m) ∉ acc) as Hk'm.
    { intros m Hm. apply Hk'. apply list_elem_of_fmap. by exists (k', m). }
    cbn [bump]. rewrite fmap_cons. cbn [fst].
    destruct (decide (k' = t)) as [->|Hne].
    + setoid_rewrite elem_of_cons. naive_solver.
    + setoid_rewrite elem_of_cons. rewrite IH. naive_solver.
Qed.

Lemma bump_NoDup t acc : NoDup (acc.*1) → NoDup ((bump t acc).*1).
Proof.
  intros Hnd. rewrite bump_keys. destruct (decide (t ∈ acc.*1)).
  - by rewrite app_nil_r.
  - apply NoDup_app. split_and!; [done| |apply NoDup_singleton].
    intros x Hx ->%list_elem_of_singleton. done.
Qed.

Lemma bump_total t acc : sum_list ((bump t acc).*2) = S (sum_list (acc.*2)).
Proof.
  induction acc as [|[k n] acc IH]; [done|]. cbn [bump].
  destruct (decide (k = t)); cbn in *; [done|]. rewrite IH. lia.
Qed.

Lemma tally_snoc errors d : tally (errors ++ [d]) = bump (type d) (tally errors).
Proof. unfold tally. by rewrite foldl_app. Qed.

Lemma kind_count_snoc k errors d :
  kind_count k (errors ++ [d]) = kind_count k errors + (if decide (type d = k) then 1 else 0).
Proof.
  unfold kind_count. rewrite filter_app, length_app. f_equal.
  destruct (decide (type d = k)).
  - by rewrite filter_cons_True.
  - by rewrite filter_cons_False.
Qed.

Lemma kind_count_pos k errors : 0 < kind_count k errors ↔ k ∈ type <$> errors.
Proof.
  unfold kind_count. induction errors as [|d errors IH].
  - cbn. split; [lia|]. by intros ?%elem_of_nil.
  - rewrite fmap_cons, elem_of_cons. destruct (decide (type d = k)) as [<-|Hne].
    + rewrite filter_cons_True by done. cbn. split; [by left|lia].
    + rewrite filter_cons_False by done. rewrite IH. naive_solver.
Qed.

(** The dictionary after the loop of lines 259-261. *)
Lemma tally_spec errors :
  NoDup ((tally errors).*1)
  ∧ (∀ k n, (k, n) ∈ tally errors ↔ n = kind_count k errors ∧ 0 < n)
  ∧ sum_list ((tally errors).*2) = length errors.
Proof.
  induction errors as [|d errors (Hnd & Hin & Hsum)] using rev_ind.
  - split_and!; [constructor| |done].
    intros k n. cbn. split; [by intros ?%elem_of_nil|]. intros [-> ?]. cbn in *. lia.
  - rewrite tally_snoc. split_and!.
    + by apply bump_NoDup.
    + intros k n. rewrite bump_elem_of by done. rewrite kind_count_snoc, !Hin.
      destruct (decide (type d = k)) as [<-|Hne].
      * split.
        -- intros [[[] _]|[_ [(m & Hm & ->)|[Hout ->]]]]; [done| |].
           ++ apply Hin in Hm as [-> ?]. lia.
           ++ assert (kind_count (type d) errors = 0) as ->; [|lia].
              destruct (kind_count (type d) errors) as [|c] eqn:Hc; [done|].
              destruct Hout. apply list_elem_of_fmap.
              exists (type d, S c). split; [done|]. apply Hin. lia.
        -- intros [-> _]. right. split; [done|].
           destruct (kind_count (type d) errors) as [|c] eqn:Hc.
           ++ right. split; [|done]. intros ((k' & m) & Hk & Hm)%list_elem_of_fmap.
              cbn in Hk. subst k'. apply Hin in Hm. lia.
           ++ left. exists (S c). split; [|lia]. apply Hin. lia.
      * split.
        -- intros [[_ [-> ?]]|[-> _]]; [lia|done].
        -- intros [-> ?]. left. split; [done|]. lia.
    + rewrite bump_total, Hsum, length_app. cbn. lia.
Qed.

End Tally.

(** X1. The summary counts the events by kind: every kind that occurs is
    listed once, with the number of events of that kind, no other kind is
    listed, and the counts add up to the number of events; a kind seen for
    the first time goes to the end of the list, a kind seen before keeps
    its place. *)
Theorem tally_counts_by_kind (errors : list error_data) :
  NoDup ((tally errors).*1)
  ∧ (∀ k n, (k, n) ∈ tally errors ↔ n = kind_count k errors ∧ k ∈ type <$> errors)
  ∧ sum_list ((tally errors).*2) = length errors
  ∧ (∀ d, (tally (errors ++ [d])).*1
          = (tally errors).*1 ++ (if decide (type d ∈ type <$> errors) then [] else [type d])).
Proof.
  destruct (tally_spec errors) as (Hnd & Hin & Hsum). split_and!; [done| |done|].
  - intros k n. rewrite Hin, <- kind_count_pos. naive_solver.
  - intros d. rewrite tally_snoc, bump_keys.
    assert (type d ∈ (tally errors).*1 ↔ type d ∈ type <$> errors) as Hiff.
    { rewrite <- kind_count_pos. split.
      - intros ((k & n) & -> & Hkn%Hin)%list_elem_of_fmap. cbn. lia.
      - intros Hpos. apply list_elem_of_fmap. exists (type d, kind_count (type d) errors).
        split; [done|]. by apply Hin. }
    destruct (decide (type d ∈ (tally errors).*1)), (decide (type d ∈ type <$> errors));
      naive_solver.
Qed.

(** ** What [save_errors_to_json] prints *)

Section Summary.
Variable E : environment.



End Summary.



(** ** The domain of a target of the usual form *)

Section PlainTargets.
Variable chk : string → bool.
Implicit Types (netloc rest : string).

Lemma append_empty s : s +:+ "" = s.
Proof. induction s as [|c s IH]; [done|]. cbn. by rewrite IH. Qed.

Lemma remove_chars_app f s1 s2 :
  Urllib.remove_chars f (s1 +:+ s2) = Urllib.remove_chars f s1 +:+ Urllib.remove_chars f s2.
Proof. induction s1 as [|c s1 IH]; [done|]. cbn. destruct (f c); [done|]. cbn. by rewrite IH. Qed.

Lemma remove_chars_none f s :
  Urllib.all_chars (λ c, negb (f c)) s = true → Urllib.remove_chars f s = s.
Proof.
  induction s as [|c s IH]; [done|]. cbn. intros [Hc Hs]%andb_true_iff.
  apply negb_true_iff in Hc. rewrite Hc. by rewrite IH.
Qed.

Lemma all_chars_impl (f g : ascii → bool) s :
  (∀ c, f c = true → g c = true) →
  Urllib.all_chars f s = true → Urllib.all_chars g s = true.
Proof.
  intros Hfg. induction s as [|c s IH]; [done|]. cbn.
  intros [Hc Hs]%andb_true_iff. rewrite (Hfg _ Hc). by apply IH.
Qed.

Lemma after_netloc_remove_chars rest :
  after_netloc rest = true → after_netloc (Urllib.remove_chars Urllib.unsafe_url_byte rest) = true.
Proof.
  destruct rest as [|c rest]; [done|]. cbn. intros Hc.
  destruct (Urllib.unsafe_url_byte c) eqn:Hu; [|done].
  by destruct c as [[] [] [] [] [] [] [] []].
Qed.

Lemma splitnetloc_app netloc rest :
  Urllib.all_chars (λ c, negb (Urllib.netloc_delim c)) netloc = true →
  after_netloc rest = true →
  Urllib.splitnetloc (netloc +:+ rest) = netloc.
Proof.
  intros Hn Hr. induction netloc as [|c netloc IH].
  - destruct rest as [|c rest]; [done|]. cbn in *. by rewrite Hr.
  - cbn in *. apply andb_true_iff in Hn as [Hc Hn]. apply negb_true_iff in Hc.
    rewrite Hc. by rewrite IH.
Qed.

Lemma plain_netloc_brackets netloc :
  plain_netloc netloc = true →
  Str.contains "[" netloc = false ∧ Str.contains "]" netloc = false.
Proof.
  unfold plain_netloc. intros H. split; apply contains_all_chars;
    (eapply all_chars_impl; [|exact H]); intros c; cbn;
    rewrite !andb_true_iff; naive_solver.
Qed.

Lemma urlparse_netloc_plain_target scheme netloc rest :
  scheme ∈ ["http"; "https"] →
  plain_netloc netloc = true → after_netloc rest = true →
  Urllib.urlparse_netloc chk (scheme +:+ "://" +:+ netloc +:+ rest) = Some netloc.
Proof.
  intros Hs Hn Hr.
  pose proof (after_netloc_remove_chars rest Hr) as Hr'.
  assert (Urllib.remove_chars Urllib.unsafe_url_byte netloc = netloc) as Hrm.
  { apply remove_chars_none. eapply all_chars_impl; [|exact Hn].
    intros c. cbn. rewrite !andb_true_iff. naive_solver. }
  assert (Urllib.splitnetloc (netloc +:+ Urllib.remove_chars Urllib.unsafe_url_byte rest)
          = netloc) as Hsp.
  { apply splitnetloc_app; [|done]. eapply all_chars_impl; [|exact Hn].
    intros c. cbn. rewrite !andb_true_iff. naive_solver. }
  destruct (plain_netloc_brackets netloc Hn) as [Hob Hcb].
  unfold Urllib.urlparse_netloc.
  rewrite !elem_of_cons in Hs. destruct Hs as [->|[->|[]%elem_of_nil]].
  - change ("http" +:+ "://" +:+ netloc +:+ rest) with ("http://" +:+ (netloc +:+ rest)).
    change (Str.lstrip_by Urllib.c0_control_or_space ("http://" +:+ (netloc +:+ rest)))
      with ("http://" +:+ (netloc +:+ rest)).
    rewrite remove_chars_app, remove_chars_app, Hrm.
    change (Urllib.remove_chars Urllib.unsafe_url_byte "http://") with "http://".
    set (tail := netloc +:+ _) in *.
    change (Urllib.drop_scheme ("http://" +:+ tail)) with ("//" +:+ tail).
    change (Str.startswith ("//" +:+ tail) "//") with true. cbv iota.
    change (Str.drop 2 ("//" +:+ tail)) with tail.
    rewrite Hsp, Hob, Hcb. done.
  - change ("https" +:+ "://" +:+ netloc +:+ rest) with ("https://" +:+ (netloc +:+ rest)).
    change (Str.lstrip_by Urllib.c0_control_or_space ("https://" +:+ (netloc +:+ rest)))
      with ("https://" +:+ (netloc +:+ rest)).
    rewrite remove_chars_app, remove_chars_app, Hrm.
    change (Urllib.remove_chars Urllib.unsafe_url_byte "https://") with "https://".
    set (tail := netloc +:+ _) in *.
    change (Urllib.drop_scheme ("https://" +:+ tail)) with ("//" +:+ tail).
    change (Str.startswith ("//" +:+ tail) "//") with true. cbv iota.
    change (Str.drop 2 ("//" +:+ tail)) with tail.
    rewrite Hsp, Hob, Hcb. done.
Qed.

End PlainTargets.

(** X3. For a target [http://netloc...] or [https://netloc...] the domain
    depends on the network location alone: the scheme and whatever
    follows the network location (path, query, fragment) do not enter it,
    so all pages of a site, over either scheme, share one output file. *)
Theorem domain_ignores_scheme_and_path (chk : string → bool)
    (scheme netloc rest : string) :
  scheme ∈ ["http"; "https"] →
  plain_netloc netloc = true →
  after_netloc rest = true →
  Str.replace ":" "_" (Str.replace "www." "" netloc) ≠ "" →
  domain_of_url chk (scheme +:+ "://" +:+ netloc +:+ rest)
  = Str.replace ":" "_" (Str.replace "www." "" netloc)
  ∧ output_path (domain_of_url chk (scheme +:+ "://" +:+ netloc +:+ rest))
    = output_path (domain_of_url chk ("https://" +:+ netloc)).
Proof.
  intros Hs Hn Hr Hne.
  assert (∀ scheme' rest', scheme' ∈ ["http"; "https"] → after_netloc rest' = true →
            domain_of_url chk (scheme' +:+ "://" +:+ netloc +:+ rest')
            = Str.replace ":" "_" (Str.replace "www." "" netloc)) as Hd.
  { intros scheme' rest' Hs' Hr'. unfold domain_of_url.
    rewrite urlparse_netloc_plain_target by done.
    cbv zeta. by destruct (Str.replace ":" "_" (Str.replace "www." "" netloc)). }
  split; [by apply Hd|]. f_equal. rewrite Hd by done.
  rewrite <- (append_empty netloc) at 2. symmetry.
  apply (Hd "https" ""); [set_solver|done].
Qed.

Lemma domain_ignores_scheme_and_path_witness :
  domain_of_url (λ _, true) ("http" +:+ "://" +:+ "www.Example.com:8080" +:+ "/path?x=1")
  = Str.replace ":" "_" (Str.replace "www." "" "www.Example.com:8080")
  ∧ output_path
      (domain_of_url (λ _, true) ("http" +:+ "://" +:+ "www.Example.com:8080" +:+ "/path?x=1"))
    = output_path (domain_of_url (λ _, true) ("https://" +:+ "www.Example.com:8080")).
Proof.
  apply (domain_ignores_scheme_and_path (λ _, true) "http" "www.Example.com:8080" "/path?x=1").
  - constructor.
  - reflexivity.
  - reflexivity.
  - vm_compute. discriminate.
Defined.

(** ** The order of the effects of a run *)


(** ** Calling the methods again *)



Section LoadAgain.
Variable E : environment.

(** The value a scan starts from matters only when no line sets the URL. *)
Lemma scan_env_init lines init :
  scan_env lines init
  = match scan_env lines None with Some v => Some v | None => init end.
Proof.
  induction lines as [|line lines IH]; [done|]. cbn [scan_env].
  destruct (negb (bool_decide (Str.strip line = "")) && _ && _); [|done].
  destruct (Str.split1 "=" (Str.strip line)) as [[key value]|]; [|done].
  by case_bool_decide.
Qed.

Lemma lacks_protocol_https v : lacks_protocol ("https://" +:+ v) = false.
Proof. done. Qed.

(** A call that returns has found a file and, after the scan, a value
    that is not empty. *)
Lemma load_env_file_returned s w st' :
  load_env_file E (s, w) = (Return tt, st') →
  ∃ content v,
    env_file E = Some content
    ∧ scan_env (file_lines content) (site_url s) = Some v ∧ v ≠ ""
    ∧ url_of st' = Some (if lacks_protocol v then "https://" +:+ v else v).
Proof.
  intros Hload. destruct (env_file E) as [content|] eqn:Hfile.
  - destruct (scan_env (file_lines content) (site_url s)) as [v|] eqn:Hscan.
    + destruct (decide (v = "")) as [->|Hne].
      * rewrite (load_env_file_raises E content) in Hload by (rewrite ?Hscan; auto). done.
      * destruct (load_env_file_loads E content s w v) as (st'' & Hl & Hu); [done..|].
        rewrite Hl in Hload. simplify_eq. by exists content, v.
    + rewrite (load_env_file_raises E content) in Hload by (rewrite ?Hscan; auto). done.
  - by rewrite load_env_file_absent in Hload.
Qed.

End LoadAgain.

(** X6. [load_env_file] takes the URL the object already holds when no
    line of the file sets [SITE_URL]: it raises nothing and keeps that
    URL, with the scheme added when it lacks one. *)
Theorem load_env_file_keeps_held_url (E : environment) (s : scraper) (w : world)
    (content u : string) :
  env_file E = Some content →
  Forall passed_over (file_lines content) →
  site_url s = Some u → u ≠ "" →
  ∃ st', load_env_file E (s, w) = (Return tt, st')
    ∧ url_of st' = Some (if lacks_protocol u then "https://" +:+ u else u).
Proof.
  intros Hfile Hlines Hu Hne.
  apply (load_env_file_loads E content); [done| |done].
  by rewrite scan_env_none, Hu.
Qed.

Lemma load_env_file_keeps_held_url_witness :
  ∃ st', load_env_file (plain_page (Some comment_only)) (one_error, fresh_world ∅) = (Return tt, st')
    ∧ url_of st' = Some (if lacks_protocol "https://www.example.com"
                         then "https://" +:+ "https://www.example.com"
                         else "https://www.example.com").
Proof.
  apply (load_env_file_keeps_held_url (plain_page (Some comment_only)) one_error (fresh_world ∅) comment_only "https://www.example.com"); [done| |done|done].
  repeat constructor. apply passed_over_cases. right. by left.
Defined.

(** X7. Loading the configuration is idempotent: after a call that
    returned, a second call returns too and leaves the object as it is;
    the scheme is not added a second time. *)
Theorem load_env_file_idempotent (E : environment) (st st1 : state) :
  load_env_file E st = (Return tt, st1) →
  ∃ st2, load_env_file E st1 = (Return tt, st2) ∧ st2.1 = st1.1.
Proof.
  destruct st as [s w]. intros Hload.
  destruct (load_env_file_returned E s w st1 Hload) as (content & v & Hfile & Hscan & Hne & Hu).
  pose proof (load_env_file_frame E (s, w)) as F. rewrite Hload in F.
  destruct st1 as [s1 w1]. unfold url_of in Hu. cbn [fst snd] in *.
  set (u := if lacks_protocol v then "https://" +:+ v else v) in *.
  assert (lacks_protocol u = false) as Hp.
  { unfold u. destruct (lacks_protocol v) eqn:Hv; [apply lacks_protocol_https|done]. }
  assert (u ≠ "") as Hune.
  { unfold u. destruct (lacks_protocol v); [done|done]. }
  assert (∃ v', scan_env (file_lines content) (site_url s1) = Some v'
                ∧ v' ≠ "" ∧ (if lacks_protocol v' then "https://" +:+ v' else v') = u)
    as (v' & Hscan' & Hne' & Hu').
  { rewrite scan_env_init in Hscan. rewrite scan_env_init.
    destruct (scan_env (file_lines content) None) as [v0|].
    - exists v0. simplify_eq. done.
    - exists u. by rewrite Hu, Hp. }
  destruct (load_env_file_loads E content s1 w1 v') as ([s2 w2] & Hl2 & Hu2); [done..|].
  exists (s2, w2). split; [done|]. cbn [fst].
  pose proof (load_env_file_frame E (s1, w1)) as F2. rewrite Hl2 in F2.
  unfold both, same_on, errors_of, gdpr_of, handles_of, url_of in *. cbn [fst snd] in *.
  destruct F2 as [[[[[He Hg] Hh] _] _] _]. injection Hh as Hpw Hbr Hpg _.
  rewrite Hu' in Hu2.
  destruct s1, s2. cbn in *. congruence.
Qed.

Lemma load_env_file_idempotent_witness :
  ∃ st2,
    load_env_file (plain_page (Some sample_env_file))
      (load_env_file (plain_page (Some sample_env_file)) (init, fresh_world ∅)).2
    = (Return tt, st2)
    ∧ st2.1 = (load_env_file (plain_page (Some sample_env_file)) (init, fresh_world ∅)).2.1.
Proof.
  apply (load_env_file_idempotent (plain_page (Some sample_env_file)) (init, fresh_world ∅)).
  vm_compute. reflexivity.
Defined.

(** ** A line of the configuration file, read back *)

Section Lines.
Implicit Types (s l rest : string) (f : ascii → bool).

Lemma file_lines_first l rest :
  one_line l = true →
  file_lines (l +:+ String "010" rest) = (l +:+ String "010" "") :: file_lines rest.
Proof.
  unfold one_line. induction l as [|c l IH]; intros Hl.
  - cbn. by rewrite decide_True.
  - cbn in Hl. cbn [String.append file_lines].
    destruct (decide (c = "010"%char)) as [->|Hlf]; [done|].
    destruct (decide (c = "013"%char)) as [->|Hcr]; [by rewrite andb_false_r in Hl|].
    rewrite IH; [done|]. done.
Qed.

Lemma rstrip_by_keeps f c s : f c = false → Str.rstrip_by f (String c s) = String c (Str.rstrip_by f s).
Proof. intros Hc. cbn. rewrite Hc. by destruct (Str.rstrip_by f s). Qed.

Lemma rstrip_by_snoc f c s : f c = true → Str.rstrip_by f (s +:+ String c "") = Str.rstrip_by f s.
Proof.
  intros Hc. induction s as [|b s IH]; cbn.
  - by rewrite Hc.
  - by rewrite IH.
Qed.

Lemma rstrip_by_idemp f s : Str.rstrip_by f (Str.rstrip_by f s) = Str.rstrip_by f s.
Proof.
  induction s as [|c s IH]; [done|]. cbn.
  destruct (Str.rstrip_by f s) as [|b r] eqn:Hr.
  - destruct (f c) eqn:Hc; [done|]. cbn. by rewrite Hc.
  - cbn [Str.rstrip_by] in *. by rewrite IH.
Qed.

Lemma lstrip_rstrip f s :
  Str.lstrip_by f (Str.rstrip_by f s) = Str.rstrip_by f (Str.lstrip_by f s).
Proof.
  induction s as [|c s IH]; [done|]. cbn [Str.lstrip_by].
  destruct (f c) eqn:Hc.
  - cbn [Str.rstrip_by]. destruct (Str.rstrip_by f s) as [|b r] eqn:Hr.
    + rewrite Hc. by rewrite <- IH.
    + cbn [Str.lstrip_by]. rewrite Hc. exact IH.
  - rewrite rstrip_by_keeps by done. cbn [Str.lstrip_by]. by rewrite Hc.
Qed.

Lemma strip_rstrip s : Str.strip (Str.rstrip_by Str.isspace s) = Str.strip s.
Proof. unfold Str.strip. by rewrite lstrip_rstrip, rstrip_by_idemp. Qed.

End Lines.

(** X8. A line [SITE_URL=<text>] at the head of the file gives the URL
    [<text>] with the surrounding blanks taken off, whatever follows the
    line: [=] and [#] inside the text stay, so a URL with a query string or
    a fragment is read back as it was written. *)
Theorem site_url_line_read_back (E : environment) (s : scraper) (w : world)
    (raw rest : string) :
  env_file E = Some ("SITE_URL=" +:+ raw +:+ String "010" rest) →
  one_line raw = true →
  Str.strip raw ≠ "" →
  scan_env (file_lines ("SITE_URL=" +:+ raw +:+ String "010" rest)) (site_url s)
  = Some (Str.strip raw)
  ∧ ∃ st', load_env_file E (s, w) = (Return tt, st')
      ∧ url_of st' = Some (if lacks_protocol (Str.strip raw)
                           then "https://" +:+ Str.strip raw else Str.strip raw).
Proof.
  intros Hfile Hraw Hne.
  assert (scan_env (file_lines ("SITE_URL=" +:+ raw +:+ String "010" rest)) (site_url s)
          = Some (Str.strip raw)) as Hscan.
  { change ("SITE_URL=" +:+ raw +:+ String "010" rest)
      with (("SITE_URL=" +:+ raw) +:+ String "010" rest).
    rewrite file_lines_first by exact Hraw.
    apply scan_env_hit. exists "SITE_URL", (Str.rstrip_by Str.isspace raw).
    assert (Str.strip (("SITE_URL=" +:+ raw) +:+ String "010" "")
            = "SITE_URL=" +:+ Str.rstrip_by Str.isspace raw) as ->.
    { unfold Str.strip.
      change (("SITE_URL=" +:+ raw) +:+ String "010" "")
        with ("SITE_URL=" +:+ (raw +:+ String "010" "")).
      change (Str.lstrip_by Str.isspace ("SITE_URL=" +:+ (raw +:+ String "010" "")))
        with ("SITE_URL=" +:+ (raw +:+ String "010" "")).
      cbn [String.append]. rewrite !rstrip_by_keeps by done.
      by rewrite rstrip_by_snoc. }
    split_and!; [done|done|done|done|by rewrite strip_rstrip]. }
  split; [done|]. by eapply load_env_file_loads.
Qed.

Lemma site_url_line_read_back_witness :
  scan_env (file_lines ("SITE_URL=" +:+ " https://a.example/?q=1#top " +:+ String "010" "X=1"))
    (site_url init)
  = Some (Str.strip " https://a.example/?q=1#top ")
  ∧ ∃ st', load_env_file
             (plain_page (Some ("SITE_URL=" +:+ " https://a.example/?q=1#top "
                                +:+ String "010" "X=1")))
             (init, fresh_world ∅) = (Return tt, st')
      ∧ url_of st' = Some (if lacks_protocol (Str.strip " https://a.example/?q=1#top ")
                           then "https://" +:+ Str.strip " https://a.example/?q=1#top "
                           else Str.strip " https://a.example/?q=1#top ").
Proof.
  apply (site_url_line_read_back
           (plain_page (Some ("SITE_URL=" +:+ " https://a.example/?q=1#top "
                              +:+ String "010" "X=1")))
           init (fresh_world ∅) " https://a.example/?q=1#top " "X=1").
  - reflexivity.
  - reflexivity.
  - vm_compute. discriminate.
Defined.

(** ** Time stamps *)

Global Instance keeps_stamped_preorder (E : environment) : PreOrder (keeps_stamped E).
Proof. split; unfold keeps_stamped; [by intros st|]. intros st1 st2 st3. auto. Qed.

Section Stamps.
Variable E : environment.

Lemma stamped_snoc s w d line :
  timestamp d = now E (clock w) →
  stamped E (s, w) → stamped E (append_error d s, add_stdout line (tick w)).
Proof.
  unfold stamped, errors_of.
  cbn [fst snd console_errors append_error clock add_stdout tick]. intros Hd Hst.
  rewrite fmap_app, Hst, seq_S, fmap_app. cbn. by rewrite Hd.
Qed.

Lemma handle_console_message_stamped msg page_url :
  respects (keeps_stamped E) (handle_console_message E msg page_url).
Proof.
  intros [s w]. unfold handle_console_message.
  case_bool_decide; [|done]. intros Hst. by apply stamped_snoc.
Qed.

Lemma handle_page_error_stamped error page_url :
  respects (keeps_stamped E) (handle_page_error E error page_url).
Proof. intros [s w] Hst. by apply stamped_snoc. Qed.

Ltac stamped_leaf := intros ?; assumption.

(** The methods without the observers, opened up to the primitives. *)
Ltac stamped_auto :=
  repeat first
    [ apply handle_console_message_stamped
    | apply handle_page_error_stamped
    | progress unfold save_errors_to_json, write_json, navigate_body, goto_site_url,
        settle_and_scroll, find_and_click_accept_button, try_selector, setup_browser,
        load_env_file, acquire, release, on_page, page_attribute, deliver, sleep, print, log
    | respects_step ];
  try stamped_leaf.

Lemma load_env_file_stamped : respects (keeps_stamped E) (load_env_file E).
Proof. stamped_auto. Qed.

Lemma setup_browser_stamped : respects (keeps_stamped E) (setup_browser E).
Proof. stamped_auto. Qed.

Lemma navigate_body_stamped : respects (keeps_stamped E) (navigate_body E).
Proof. stamped_auto. Qed.

Lemma navigate_stamped : respects (keeps_stamped E) (navigate_and_capture_errors E).
Proof.
  unfold navigate_and_capture_errors. apply respects_try_except; [apply _| |].
  - apply navigate_body_stamped.
  - intros e [s w] Hst. by apply stamped_snoc.
Qed.

Lemma stamped_length st : stamped E st → clock st.2 = length (errors_of st).
Proof.
  unfold stamped. intros H. apply (f_equal length) in H.
  rewrite !length_fmap, length_seq in H. done.
Qed.

End Stamps.

(** X9. The time stamps of a run follow the clock: the script reads the
    clock once for each event it records and once more for the document,
    in this order, so the n-th event bears the n-th reading and
    [scraped_at] is the reading after the last event's. *)
Theorem timestamps_follow_the_clock (E : environment) (disk : gmap string output_data) :
  ∃ s w,
    main E disk = (Return tt, (s, w))
    ∧ timestamp <$> console_errors s = now E <$> seq 0 (length (console_errors s))
    ∧ ∀ path data, (path, data) ∈ writes (trace w) →
        out_scraped_at data = now E (length (console_errors s)).
Proof.
  unfold main. destruct (run_unfolds E (init, fresh_world disk)) as ([s w] & -> & Hpath).
  exists s, w. split; [done|].
  set (st0 := (print "Starting console error scraper..." (init, fresh_world disk)).2).
  assert (stamped E st0) as Hs0 by done.
  destruct (run_outcome E disk _ Hpath)
    as [(_ & He & _ & Hw & _)
       |(st1 & st2 & st3 & u & Hl & Hs & Hn & _ & _ & _ & _ & _ & He & _ & _ & Hcase)].
  { unfold errors_of, trace_of in *. cbn [fst snd] in *. rewrite He, Hw.
    split; [done|]. by intros ?? ?%elem_of_nil. }
  fold st0 in Hl.
  pose proof (load_env_file_stamped E st0 Hs0) as Hs1. rewrite Hl in Hs1.
  pose proof (setup_browser_stamped E st1 Hs1) as Hs2. rewrite Hs in Hs2.
  pose proof (navigate_stamped E st2 Hs2) as Hs3. rewrite Hn in Hs3. cbn [snd] in Hs3.
  pose proof (stamped_length E st3 Hs3) as Hlen.
  unfold errors_of in He, Hlen. cbn [fst] in He.
  split.
  { rewrite He, <- Hlen. exact Hs3. }
  intros path data Hin.
  destruct Hcase as [(_ & Hw & _)|[(_ & _ & Hw & _)|(_ & _ & Hw & _)]];
    unfold trace_of in Hw; cbn [snd] in Hw; rewrite Hw in Hin;
    [by apply elem_of_nil in Hin| |by apply elem_of_nil in Hin].
  apply list_elem_of_singleton in Hin as [= -> ->].
  cbn [out_scraped_at document]. by rewrite Hlen, He.
Qed.

(** ** The shape of the events *)

Global Instance on_open_page_preorder (u : string) : PreOrder (on_open_page u).
Proof.
  split; unfold on_open_page.
  - intros st [??]. by split_and!.
  - intros st1 st2 st3 H12 H23 H1. destruct (H12 H1) as (Hp & Hu & He).
    destruct (H23 (conj Hp Hu)) as (Hp' & Hu' & He'). split_and!; [done..|].
    by etrans.
Qed.

Section Shape.
Variable E : environment.
Variable u : string.

Lemma handle_console_message_shape msg page_url :
  respects (on_open_page u) (handle_console_message E msg page_url).
Proof.
  intros [s w]. unfold handle_console_message.
  case_bool_decide as Ht; [|reflexivity].
  intros [[h Hp] Hu]. cbn in Hp, Hu.
  unfold isoformat_now, current_url, print, mbind, M_bind, bind, get_self, get_world,
    modify_self, modify_world, mret, M_ret, ret; cbn [fst snd]. rewrite Hp. cbn.
  split_and!; [by eexists|done|]. apply extends_snoc.
  split_and!; cbn; [by eexists|by split; [|eexists]|].
  intros Hn. rewrite Hn in Ht. by repeat apply elem_of_cons in Ht as [Ht|Ht];
    try apply elem_of_nil in Ht.
Qed.

Lemma handle_page_error_shape error page_url :
  respects (on_open_page u) (handle_page_error E error page_url).
Proof.
  intros [s w] [[h Hp] Hu]. cbn in Hp, Hu. unfold handle_page_error.
  unfold isoformat_now, current_url, print, mbind, M_bind, bind, get_self, get_world,
    modify_self, modify_world, mret, M_ret, ret; cbn [fst snd]. rewrite Hp. cbn.
  split_and!; [by eexists|done|]. apply extends_snoc.
  split_and!; cbn; [by eexists| |done].
  split; [by intros [? [=]]|].
  intros Ht. by repeat apply elem_of_cons in Ht as [Ht|Ht]; try apply elem_of_nil in Ht.
Qed.

Ltac shape_leaf := intros [??]; cbn; by split_and!.

Ltac shape_auto :=
  repeat first
    [ apply handle_console_message_shape
    | apply handle_page_error_shape
    | progress unfold navigate_body, goto_site_url,
        settle_and_scroll, find_and_click_accept_button, try_selector,
        on_page, page_attribute, deliver, sleep, print, log
    | respects_step ];
  try shape_leaf.

Lemma navigate_body_shape : respects (on_open_page u) (navigate_body E).
Proof. shape_auto. Qed.

Lemma navigate_shape : respects (on_open_page u) (navigate_and_capture_errors E).
Proof.
  unfold navigate_and_capture_errors. apply respects_try_except; [apply _| |].
  - apply navigate_body_shape.
  - intros e [s w] [Hp Hu]. cbn in Hp, Hu.
    unfold isoformat_now, current_url, print, mbind, M_bind, bind, get_self, get_world,
    modify_self, modify_world, mret, M_ret, ret; cbn [fst snd]. cbn.
    split_and!; [done..|]. apply extends_snoc.
    split_and!; cbn; [by eexists| |done].
    split; [by intros [? [=]]|].
    intros Ht. by repeat apply elem_of_cons in Ht as [Ht|Ht]; try apply elem_of_nil in Ht.
Qed.

End Shape.

(** X10. Every event a run ends with names a page ([url] is not null),
    has a source location exactly when it is a console message ([error]
    or [warning]; page errors and the navigation error have none), and a
    navigation error names the target URL. *)
Theorem events_are_well_formed (E : environment) (disk : gmap string output_data) :
  ∃ s w,
    main E disk = (Return tt, (s, w))
    ∧ ∀ d, d ∈ console_errors s → ∃ u, site_url s = Some u ∧ well_formed_event u d.
Proof.
  unfold main. destruct (run_unfolds E (init, fresh_world disk)) as ([s w] & -> & Hpath).
  exists s, w. split; [done|].
  destruct (run_outcome E disk _ Hpath)
    as [(_ & He & _)
       |(st1 & st2 & st3 & u & Hl & Hs & Hn & He2 & _ & Hu2 & _ & _ & He & _ & Hu & _)].
  { unfold errors_of in He. cbn [fst] in He. rewrite He. by intros d ?%elem_of_nil. }
  destruct (setup_browser_holds E _ _ Hs) as (_ & _ & Hp).
  destruct (navigate_shape E u st2) as (_ & _ & new & Hnew & HF).
  { split; [by rewrite Hp|done]. }
  rewrite Hn in Hnew. cbn [snd] in Hnew. rewrite He2 in Hnew. cbn [app] in Hnew.
  unfold errors_of, url_of in *. cbn [fst] in *.
  intros d Hd. exists u. split; [done|].
  rewrite He, Hnew in Hd. by eapply Forall_forall in HF.
Qed.

(** ** An object without a page *)

(** X11. On an object that holds no page, [navigate_and_capture_errors]
    fails at the lookup of [goto], before any call into the engine: it
    records the [AttributeError] as its one [navigation_error] event,
    with the URL attribute as it is, and returns. *)
Theorem navigation_without_page (E : environment) (s : scraper) (w : world) :
  page s = None →
  ∃ s' w',
    navigate_and_capture_errors E (s, w) = (Return tt, (s', w'))
    ∧ console_errors s'
      = console_errors s
        ++ [navigation_error E (clock w)
              (AttributeError "'NoneType' object has no attribute 'goto'") (site_url s)]
    ∧ trace w' = trace w
    ∧ gdpr_present s' = gdpr_present s.
Proof.
  intros Hp.
  destruct (navigate_catches E (s, w) _ _ (navigate_body_without_page E s w Hp))
    as ([s' w'] & Hn & He).
  exists s', w'. split; [done|]. split; [exact He|].
  unfold navigate_and_capture_errors, try_except in Hn.
  rewrite (navigate_body_without_page E s w Hp) in Hn.
  by injection Hn as <- <-.
Qed.

Lemma navigation_without_page_witness :
  ∃ s' w',
    navigate_and_capture_errors (plain_page None) (init, fresh_world ∅) = (Return tt, (s', w'))
    ∧ console_errors s'
      = console_errors init
        ++ [navigation_error (plain_page None) (clock (fresh_world ∅))
              (AttributeError "'NoneType' object has no attribute 'goto'") (site_url init)]
    ∧ trace w' = trace (fresh_world ∅)
    ∧ gdpr_present s' = gdpr_present init.
Proof. by apply (navigation_without_page (plain_page None) init (fresh_world ∅)). Defined.
